(** * Seating-chart renderer of make-site.py

    A shallow embedding of [draw_svg] (the seat grid and the SVG text it
    emits) and of the loop of [build_site] that reads the reservation
    records, with the properties of the grid and of the seat colouring.

    A Python [str] is held as the string of its UTF-8 bytes: equality,
    concatenation and a test of an ASCII prefix are the same on the bytes as
    on the code points. *)

From Stdlib Require Import ZArith List Bool Lia.
From Stdlib Require Import Strings.Ascii Strings.String Numbers.DecimalString.
From Stdlib Require Import Numbers.DecimalPos Numbers.DecimalZ.
Import ListNotations.

Local Open Scope string_scope.
Local Open Scope Z_scope.

(** ** Python values and their formatting *)

Module Py.

(** Exceptions the modelled code can raise. *)
Inductive exn : Type :=
| AssertionError
| IndexError
| ValueError.

(** A computation that returns or raises. *)
Definition result (A : Type) : Type := (exn + A)%type.

Definition ret {A : Type} (a : A) : result A := inr a.
Definition raise {A : Type} (e : exn) : result A := inl e.

Definition bind {A B : Type} (m : result A) (f : A -> result B) : result B :=
  match m with
  | inl e => inl e
  | inr a => f a
  end.

(** [assert c] *)
Definition assert (c : bool) : result unit :=
  if c then ret tt else raise AssertionError.

(** [str(z)] for an int. *)
Definition str (z : Z) : string := NilZero.string_of_int (Z.to_int z).

(** The numbers [draw_svg] computes with: ints, and floats that are a
    whole number of halves ([i + 1.5], [w / 2], and their products with an
    int).  A float is kept as its numerator over 2.  This is the double of
    the source only while the value stays below 2^53, where every such value
    is a double and the operations are exact; [draw_svg] stays below 1400
    (the grid has 30 columns and 16 rows), and what is proved of a
    coordinate is stated for the columns and rows of the grid. *)
Inductive num : Type :=
| Int (z : Z)
| Flt (halves : Z).

Definition add (a b : num) : num :=
  match a, b with
  | Int x, Int y => Int (x + y)
  | Int x, Flt h => Flt (2 * x + h)
  | Flt h, Int y => Flt (h + 2 * y)
  | Flt h, Flt k => Flt (h + k)
  end.

Definition sub (a b : num) : num :=
  match a, b with
  | Int x, Int y => Int (x - y)
  | Int x, Flt h => Flt (2 * x - h)
  | Flt h, Int y => Flt (h - 2 * y)
  | Flt h, Flt k => Flt (h - k)
  end.

(** [z * b] for an int [z]. *)
Definition scale (z : Z) (b : num) : num :=
  match b with
  | Int y => Int (z * y)
  | Flt h => Flt (z * h)
  end.

(** [z / 2], Python's true division of an int. *)
Definition halve (z : Z) : num := Flt z.

(** The float literals [1.5] and [3.5]. *)
Definition one_and_half : num := Flt 3.
Definition three_and_half : num := Flt 7.

(** [repr] of a float that is [h] halves: the integer part, then [.0]
    or [.5].  Python writes a float this way below 1e16 (an exponent from
    there on), which covers every float of [draw_svg]. *)
Definition float_repr (h : Z) : string :=
  let body := str (Z.abs h / 2) ++ (if Z.even h then ".0" else ".5") in
  if h <? 0 then "-" ++ body else body.

(** A value interpolated in an f-string. *)
Inductive value : Type :=
| VNum (n : num)
| VStr (s : string).

Definition format (v : value) : string :=
  match v with
  | VNum (Int z) => str z
  | VNum (Flt h) => float_repr h
  | VStr s => s
  end.

(** [sep.join(parts)] *)
Fixpoint join (sep : string) (parts : list string) : string :=
  match parts with
  | [] => EmptyString
  | [p] => p
  | p :: rest => p ++ sep ++ join sep rest
  end.

(** [x in xs] for a list of strings. *)
Definition contains (x : string) (xs : list string) : bool :=
  existsb (String.eqb x) xs.

(** [xs[start:stop]]; [None] is an omitted bound, a negative bound counts
    from the end, and bounds are clamped to the list. *)
Definition slice_index (len : Z) (default : Z) (bound : option Z) : Z :=
  match bound with
  | None => default
  | Some b =>
      let b' := if b <? 0 then b + len else b in
      Z.max 0 (Z.min len b')
  end.

Definition slice {A : Type} (xs : list A) (start stop : option Z) : list A :=
  let len := Z.of_nat (List.length xs) in
  let lo := slice_index len 0 start in
  let hi := slice_index len len stop in
  firstn (Z.to_nat (hi - lo)) (skipn (Z.to_nat lo) xs).

(** [range(n)] *)
Definition range (n : nat) : list Z := map Z.of_nat (seq 0 n).

(** [s[j]] for a string, as a one-character string. *)
Definition item (s : string) (j : nat) : result string :=
  match String.get j s with
  | Some c => ret (String c EmptyString)
  | None => raise IndexError
  end.

(** A dict with string keys, in insertion order. *)
Definition dict : Type := list (string * value).

Fixpoint dict_set (d : dict) (k : string) (v : value) : dict :=
  match d with
  | [] => [(k, v)]
  | (k', v') :: rest =>
      if String.eqb k' k then (k', v) :: rest
      else (k', v') :: dict_set rest k v
  end.

(** [d | e] *)
Definition dict_union (d e : dict) : dict :=
  fold_left (fun acc kv => dict_set acc (fst kv) (snd kv)) e d.

End Py.

Notation "x <- m ;; k" := (Py.bind m (fun x => k))
  (at level 61, m at next level, right associativity).


(** ** The text of the drawing primitives (make-site.py, lines 53-92) *)

Module Svg.
Import Py.

(** The double-quote character. *)
Definition dq : string := String (Ascii.ascii_of_nat 34) EmptyString.

Definition quoted (s : string) : string := dq ++ s ++ dq.

(** [make_args]: every entry as [k="v"], joined by spaces. *)
Definition make_args (args : dict) : string :=
  join " " (map (fun kv => fst kv ++ "=" ++ quoted (format (snd kv))) args).

(** [draw_text(x, y, size, text, fill, **kwargs)].  [kwargs] holds none of
    the names [x], [y], [size], [text], [fill] (Python refuses such a call
    with a TypeError before the body runs); [draw_svg] passes no keyword
    or [dy] alone. *)
Definition draw_text (x y size : num) (text : string) (fill : string)
    (kwargs : dict) : string :=
  let args :=
    make_args
      (dict_union
         [ ("x", VNum x);
           ("y", VNum y);
           ("dominant-baseline", VStr "middle");
           ("text-anchor", VStr "middle");
           ("font-family", VStr "sans-serif");
           ("font-size", VNum size);
           ("fill", VStr fill) ]
         kwargs) in
  "<text " ++ args ++ ">" ++ text ++ "</text>".

(** [draw_rect(x, y, w, h, stroke, fill)] *)
Definition draw_rect (x y w h : num) (stroke fill : string) : string :=
  let args :=
    make_args
      [ ("x", VNum x);
        ("y", VNum y);
        ("width", VNum w);
        ("height", VNum h);
        ("stroke", VStr stroke);
        ("fill", VStr fill) ] in
  "<rect " ++ args ++ " />".

(** [draw_seat(x, y, k, color)]: a scaled group of a square and the seat
    number. *)
Definition draw_seat (x y : num) (k : Z) (color : string) : string :=
  join (String (Ascii.ascii_of_nat 10) EmptyString)
    [ "<g transform=" ++ quoted ("translate(" ++ format (VNum x) ++ ","
                                 ++ format (VNum y) ++ ") scale(1.6)") ++ ">";
      "  " ++ draw_rect (Int (-10)) (Int (-10)) (Int 20) (Int 20) "black" color;
      "  " ++ draw_text (Int 0) (Int 0) (Int 9) (str k) "black"
                [("dy", VStr ".1em")];
      "</g>" ].

End Svg.

(** ** The seat grid (make-site.py, lines 94-106) *)

Import Py.

(** The line-feed string that joins the lines of the document. *)
Definition nl : string := String (Ascii.ascii_of_nat 10) EmptyString.

(** [[x] * n] *)
Definition times {A : Type} (x : A) (n : nat) : list A := repeat x n.

(** [for j, x in enumerate(xs)], threading the loop's state and stopping at
    the first exception. *)
Fixpoint for_enumerate {A St : Type} (body : nat -> A -> St -> result St)
    (start : nat) (xs : list A) (s : St) : result St :=
  match xs with
  | [] => ret s
  | x :: rest => s' <- body start x s ;; for_enumerate body (S start) rest s'
  end.

Definition size : Z := 40.

(** A cell of the grid is an int: [0] is an empty cell, [-1] marks the place
    of the row's letter, a positive number is a seat. *)
Definition ls : list Z := map (fun i => i * 2 + 1) (rev (range 12)).
Definition rs : list Z := map (fun i => i * 2 + 2) (range 12).

Definition cols : list Z :=
  (slice ls None (Some 6) ++ [0; -1; 0] ++ slice ls (Some 6) None
   ++ slice rs None (Some 6) ++ [0; -1; 0] ++ slice rs (Some 6) None)%list.

Definition rows : string := "ABCDEFGHJKLMNOPQ".

Local Open Scope list_scope.

Definition seats : list (list Z) :=
  let seats := [] in
  let seats := seats ++ map (fun _ => slice cols None None) (range 2) in
  let seats :=
    seats ++ map (fun _ => times 0 2 ++ slice cols (Some 2) (Some (-2)) ++ times 0 2)
                 (range 8) in
  let seats :=
    seats ++ [times 0 2 ++ slice cols (Some 2) (Some (-4)) ++ times 0 4] in
  let seats :=
    seats ++ map (fun _ => times 0 6 ++ slice cols (Some 6) (Some (-6)) ++ times 0 6)
                 (range 4) in
  let seats :=
    seats ++ [times 0 6 ++ slice cols (Some 6) (Some 13) ++ times 0 4
              ++ slice cols (Some (-13)) (Some (-6)) ++ times 0 6] in
  seats.

(** The two assertions of lines 105-106. *)
Definition check_grid : result unit :=
  _ <- assert (Nat.eqb (List.length seats) (String.length rows)) ;;
  assert (forallb (fun row => Nat.eqb (List.length cols) (List.length row)) seats).

(** ** The renderer (make-site.py, lines 108-139) *)

Definition color_reserved : string := "#ffcccb".
Definition color_premium : string := "yellow".
Definition color_none : string := "none".

(** [size * (i + 1.5)] and [size * (j + 3.5)], the centre of a cell. *)
Definition cell_x (i : nat) : num :=
  scale size (add (Int (Z.of_nat i)) one_and_half).
Definition cell_y (j : nat) : num :=
  scale size (add (Int (Z.of_nat j)) three_and_half).

(** The body of the inner loop (lines 123-136) for the cell [k] at row [j],
    column [i]: what it appends to the list [svg]. *)
Definition render_cell (reserved : list string) (j i : nat) (k : Z)
    (svg : list string) : result (list string) :=
  if k =? 0 then ret svg
  else
    let x := cell_x i in
    let y := cell_y j in
    if k <? 0 then
      letter <- item rows j ;;
      ret (svg ++ [Svg.draw_text x y (Int 20) letter "black" []])
    else
      let color := color_none in
      let color := if k >? 20 then color_premium else color in
      letter <- item rows j ;;
      let seat := (letter ++ str k)%string in
      let color := if contains seat reserved then color_reserved else color in
      ret (svg ++ [Svg.draw_seat x y k color]).

Definition render_row (reserved : list string) (j : nat) (row : list Z)
    (svg : list string) : result (list string) :=
  for_enumerate (render_cell reserved j) 0 row svg.

(** The list [svg] before the loops (lines 108-119). *)
Definition svg_head : list string :=
  let w := size * Z.of_nat (List.length cols) + 2 * size in
  let h := size * Z.of_nat (String.length rows) + 6 * size in
  let stage := size * 2 in
  [ ("<svg xmlns=" ++ Svg.quoted "http://www.w3.org/2000/svg"
      ++ " width=" ++ Svg.quoted (str w) ++ " height=" ++ Svg.quoted (str h)
      ++ ">")%string;
    Svg.draw_rect (Int 0) (Int 0) (Int w) (Int stage) "none" "#8bc34a";
    Svg.draw_text (halve w) (add (halve stage) (Int 5)) (Int 24) "Scène" "white" [];
    Svg.draw_rect (Int 0) (Int (h - stage)) (Int w) (Int stage) "none" "#8bc34a";
    Svg.draw_text (halve w) (add (sub (Int h) (halve stage)) (Int 5)) (Int 24)
      "Régie" "white" [] ].

(** The list [svg] when the function returns: the head, what the loops
    append, and the closing tag. *)
Definition svg_lines (reserved : list string) : result (list string) :=
  _ <- check_grid ;;
  svg <- for_enumerate (render_row reserved) 0 seats svg_head ;;
  ret (svg ++ ["</svg>"]).

Definition draw_svg (reserved : list string) : result string :=
  svg <- svg_lines reserved ;;
  ret (join nl svg).

(** ** The reservation records (make-site.py, lines 205-223) *)

Section Records.

(** [str.strip], and the [render] of the seating template, of the
    libraries the script calls. *)
Variable strip : string -> string.
Variable seating_render : string -> string -> string -> string -> string.

(** The directory the site is generated in. *)
Variable root : string.

(** What the loop changes: the files written so far, oldest first, and
    the text of the ticket page, [texts["vente-de-billets"]]. *)
Record site : Type := Site {
  written : list (string * string);
  tickets_text : string
}.

(** [Path(root, name).write_text(text)] *)
Definition write_text (st : site) (name text : string) : site :=
  Site (written st ++ [((root ++ "/" ++ name)%string, text)]) (tickets_text st).

Definition add_text (st : site) (text : string) : site :=
  Site (written st) (tickets_text st ++ text)%string.

(** [[line for line in lines if not line.startswith("#")]] *)
Definition non_comment (lines : list string) : list string :=
  filter (fun line => negb (String.prefix "#" line)) lines.

Definition nonempty (s : string) : bool :=
  match s with
  | EmptyString => false
  | String _ _ => true
  end.

(** The loop of lines 209-212 over [lines[3:]]. *)
Definition reserved_of (lines : list string) : list string :=
  fold_left
    (fun reserved line =>
       let line := strip line in
       if nonempty line then reserved ++ [line] else reserved)
    (slice lines (Some 3) None) [].

(** The body of the loop over the record files, for the file of stem
    [stem] whose text splits into [lines].  The state is returned beside
    the outcome: what was written before an exception stays written. *)
Definition process_record (stem : string) (lines : list string) (st : site)
    : site * result unit :=
  let lines := non_comment lines in
  let reserved := reserved_of lines in
  let svg := ("static/" ++ stem ++ ".svg")%string in
  match draw_svg reserved with
  | inl e => (st, raise e)
  | inr doc =>
      let st := write_text st svg doc in
      match slice lines None (Some 3) with
      | [what; where'; when'] =>
          (add_text st (seating_render what where' when' svg), ret tt)
      | _ => (st, raise ValueError)
      end
  end.

(** The loop over the record files; an exception ends it. *)
Fixpoint process_records (records : list (string * list string)) (st : site)
    : site * result unit :=
  match records with
  | [] => (st, ret tt)
  | (stem, lines) :: rest =>
      match process_record stem lines st with
      | (st', inr _) => process_records rest st'
      | (st', inl e) => (st', raise e)
      end
  end.

End Records.

(** ** Observations on the grid and on the document *)

(** What a cell stands for, by the tests of the inner loop: [k == 0] is
    skipped, [k < 0] draws the row's letter, any other cell is a seat. *)
Inductive cell : Type :=
| Empty
| RowLabel
| SeatNumber (n : Z).

Definition cell_of (k : Z) : cell :=
  if k =? 0 then Empty else if k <? 0 then RowLabel else SeatNumber k.

(** [enumerate(xs, start)] as a list of pairs. *)
Definition enumerate_from {A : Type} (start : nat) (xs : list A) : list (nat * A) :=
  combine (seq start (List.length xs)) xs.

(** The identifiers of the seats of the grid, row by row: the row's letter
    followed by the seat number, as line 133 builds them. *)
Definition row_seat_ids (j : nat) (row : list Z) : list string :=
  match item rows j with
  | inr letter =>
      flat_map (fun k => if 0 <? k then [(letter ++ str k)%string] else []) row
  | inl _ => []
  end.

Definition seat_ids : list string :=
  flat_map (fun jr => row_seat_ids (fst jr) (snd jr)) (enumerate_from 0 seats).

(** The fill by priority for seat [k] whose identifier is [seat]: reserved,
    else above 20, else none. *)
Definition expected_fill (reserved : list string) (seat : string) (k : Z) : string :=
  if contains seat reserved then "#ffcccb"
  else if 20 <? k then "yellow"
  else "none".

(** How many times [pat] occurs in [s]. *)
Fixpoint occurrences (pat s : string) : nat :=
  match s with
  | EmptyString => 0%nat
  | String _ s' =>
      ((if String.prefix pat s then 1 else 0) + occurrences pat s')%nat
  end.

(** The attribute [fill="yellow"]. *)
Definition fill_premium : string := ("fill=" ++ Svg.quoted color_premium)%string.
Definition fill_reserved : string := ("fill=" ++ Svg.quoted color_reserved)%string.

(** The seat numbers above 20 of a row. *)
Definition premium_of (row : list Z) : list Z := filter (fun k => 20 <? k) row.

(** The two sequences in the words of the description: the odd numbers of
    1..23 from the largest down, the even numbers of 2..24 upwards. *)
Definition odd_descending : list Z :=
  rev (filter Z.odd (map Z.of_nat (seq 1 23))).
Definition even_ascending : list Z :=
  filter Z.even (map Z.of_nat (seq 2 23)).

(** How often an attribute occurs in the document drawn for [reserved]. *)
Definition count_in_document (attribute : string) (reserved : list string)
    : result nat :=
  doc <- draw_svg reserved ;;
  ret (occurrences attribute doc).

(** How many of the seat groups appended to [svg] carry an attribute. *)
Definition count_glyphs (attribute : string) (reserved : list string)
    : result nat :=
  svg <- svg_lines reserved ;;
  ret (List.length
         (filter (fun line =>
                    String.prefix "<g " line
                    && Nat.ltb 0 (occurrences attribute line))
                 svg)).

(** ** The lines of the document, cell by cell *)

(** What the cell [k] at row [j], column [i] adds to the list [svg]: what
    the body of the inner loop appends to an empty list. *)
Definition cell_lines (reserved : list string) (j i : nat) (k : Z) : list string :=
  match render_cell reserved j i k [] with
  | inr out => out
  | inl _ => []
  end.

Definition row_lines (reserved : list string) (jr : nat * list Z) : list string :=
  flat_map (fun ik => cell_lines reserved (fst jr) (fst ik) (snd ik))
    (enumerate_from 0 (snd jr)).

Definition grid_lines (reserved : list string) : list string :=
  flat_map (row_lines reserved) (enumerate_from 0 seats).

(** A line of the document drawn for some reservations against the line at
    the same place of the document drawn for none: the same line, or the
    same seat in the reserved colour. *)
Definition recoloured (line0 line : string) : Prop :=
  line = line0
  \/ exists x y k color0,
      line0 = Svg.draw_seat x y k color0
      /\ line = Svg.draw_seat x y k color_reserved.

(** A seat group that carries the attribute. *)
Definition glyph_with (attribute line : string) : bool :=
  String.prefix "<g " line && Nat.ltb 0 (occurrences attribute line).

(** The identifier of a cell, if it is a seat, and if it is a seat above
    20. *)
Definition cell_ids (j : nat) (k : Z) : list string :=
  match item rows j with
  | inr letter => if 0 <? k then [(letter ++ str k)%string] else []
  | inl _ => []
  end.

Definition cell_premium_ids (j : nat) (k : Z) : list string :=
  match item rows j with
  | inr letter => if 20 <? k then [(letter ++ str k)%string] else []
  | inl _ => []
  end.

Definition premium_seat_ids : list string :=
  flat_map (fun jr => flat_map (cell_premium_ids (fst jr)) (snd jr))
    (enumerate_from 0 seats).

(** For every seat of the grid, which of the three fills make its glyph
    carry [fill="#ffcccb"], and which [fill="yellow"]. *)
Definition glyph_fills_ok (j i : nat) (k : Z) : bool :=
  let glyph := Svg.draw_seat (cell_x i) (cell_y j) k in
  glyph_with fill_reserved (glyph color_reserved)
  && negb (glyph_with fill_reserved (glyph color_premium))
  && negb (glyph_with fill_reserved (glyph color_none))
  && negb (glyph_with fill_premium (glyph color_reserved))
  && glyph_with fill_premium (glyph color_premium)
  && negb (glyph_with fill_premium (glyph color_none)).

Definition glyph_table_ok : bool :=
  forallb
    (fun jr =>
       forallb
         (fun ik => if 0 <? snd ik then glyph_fills_ok (fst jr) (fst ik) (snd ik)
                    else true)
         (enumerate_from 0 (snd jr)))
    (enumerate_from 0 seats).

(** The name of the chart of a record, and the table its three first lines
    that are not comments give on the ticket page (nothing when there are
    fewer). *)
Definition chart_name (stem : string) : string :=
  ("static/" ++ stem ++ ".svg")%string.

Definition table_of
    (seating_render : string -> string -> string -> string -> string)
    (record : string * list string) : string :=
  match non_comment (snd record) with
  | what :: where' :: when' :: _ =>
      seating_render what where' when' (chart_name (fst record))
  | _ => EmptyString
  end.

(** The path of the chart of a record, and the tables of a list of
    records, one after the other. *)
Definition chart_path (root : string) (record : string * list string) : string :=
  (root ++ "/" ++ chart_name (fst record))%string.

Definition tables
    (seating_render : string -> string -> string -> string -> string)
    (records : list (string * list string)) : string :=
  fold_right String.append EmptyString (map (table_of seating_render) records).

(** The decimal digits, and the strings made of them. *)
Definition is_digit (c : ascii) : bool :=
  Nat.leb 48 (nat_of_ascii c) && Nat.leb (nat_of_ascii c) 57.

Fixpoint all_digits (s : string) : bool :=
  match s with
  | EmptyString => true
  | String c s' => is_digit c && all_digits s'
  end.

(** The text of a seat group around its four variable parts: the two
    coordinates, the fill and the seat number. *)
Definition seat_open : string :=
  ("<g transform=" ++ Svg.dq ++ "translate(")%string.

Definition seat_to_fill : string :=
  (") scale(1.6)" ++ Svg.dq ++ ">" ++ nl
   ++ "  <rect x=" ++ Svg.quoted "-10" ++ " y=" ++ Svg.quoted "-10"
   ++ " width=" ++ Svg.quoted "20" ++ " height=" ++ Svg.quoted "20"
   ++ " stroke=" ++ Svg.quoted "black" ++ " fill=" ++ Svg.dq)%string.

Definition seat_to_number : string :=
  (Svg.dq ++ " />" ++ nl
   ++ "  <text x=" ++ Svg.quoted "0" ++ " y=" ++ Svg.quoted "0"
   ++ " dominant-baseline=" ++ Svg.quoted "middle"
   ++ " text-anchor=" ++ Svg.quoted "middle"
   ++ " font-family=" ++ Svg.quoted "sans-serif"
   ++ " font-size=" ++ Svg.quoted "9" ++ " fill=" ++ Svg.quoted "black"
   ++ " dy=" ++ Svg.quoted ".1em" ++ ">")%string.

Definition seat_close : string := ("</text>" ++ nl ++ "</g>")%string.

(** A record with its three lines of heading. *)
Definition well_formed (record : string * list string) : Prop :=
  (3 <= List.length (non_comment (snd record)))%nat.

(** ** Lemmas on Python's operations *)

Lemma contains_In (x : string) (xs : list string) :
  contains x xs = true <-> In x xs.
Proof.
  unfold contains. rewrite existsb_exists. split.
  - intros [y [Hy Heq]]. apply String.eqb_eq in Heq. now subst.
  - intros H. exists x. split; [assumption | apply String.eqb_refl].
Qed.

Lemma contains_ext (r1 r2 : list string) :
  (forall id, In id r1 <-> In id r2) ->
  forall id, contains id r1 = contains id r2.
Proof.
  intros H id.
  destruct (contains id r1) eqn:E1, (contains id r2) eqn:E2; try reflexivity.
  - apply contains_In, H, contains_In in E1. congruence.
  - apply contains_In, H, contains_In in E2. congruence.
Qed.

Lemma item_in_range (s : string) (j : nat) :
  (j < String.length s)%nat -> exists letter, item s j = ret letter.
Proof.
  unfold item. revert j.
  induction s as [| c s IH]; intros j Hj; simpl in Hj; [lia |].
  destruct j as [| j]; simpl.
  - now eexists.
  - apply IH. lia.
Qed.

Lemma nth_error_enumerate {A : Type} (xs : list A) :
  forall start j x,
    In (j, x) (enumerate_from start xs) <->
    (start <= j)%nat /\ nth_error xs (j - start) = Some x.
Proof.
  unfold enumerate_from.
  induction xs as [| y ys IH]; intros start j x; simpl.
  - split; [tauto |]. intros [_ H]. destruct (j - start)%nat; discriminate.
  - rewrite IH. split.
    + intros [Heq | [Hle Hnth]].
      * inversion Heq; subst. rewrite Nat.sub_diag. now split.
      * split; [lia |].
        replace (j - start)%nat with (S (j - S start)) by lia. exact Hnth.
    + intros [Hle Hnth].
      destruct (Nat.eq_dec j start) as [-> | Hne].
      * rewrite Nat.sub_diag in Hnth. simpl in Hnth. left. congruence.
      * right. split; [lia |].
        replace (j - start)%nat with (S (j - S start)) in Hnth by lia.
        exact Hnth.
Qed.

(** ** Lemmas on the loops *)

(** Two loop bodies that agree on the elements of the list give the same
    loop. *)
Lemma for_enumerate_ext {A St : Type} (f g : nat -> A -> St -> result St)
    (xs : list A) :
  forall start s,
    (forall i x s', nth_error xs i = Some x ->
                    f (start + i)%nat x s' = g (start + i)%nat x s') ->
    for_enumerate f start xs s = for_enumerate g start xs s.
Proof.
  induction xs as [| x xs IH]; intros start s H; simpl; [reflexivity |].
  pose proof (H 0%nat x s eq_refl) as H0. rewrite Nat.add_0_r in H0.
  rewrite H0. destruct (g start x s) as [e | s']; simpl; [reflexivity |].
  apply IH. intros i y s'' Hi.
  replace (S start + i)%nat with (start + S i)%nat by lia.
  now apply H.
Qed.

(** One turn of the inner loop appends to [svg], whatever [svg] holds, as
    long as the row has a letter. *)
Lemma render_cell_appends (reserved : list string) (j i : nat) (k : Z) :
  (j < String.length rows)%nat ->
  exists out, forall svg, render_cell reserved j i k svg = ret (svg ++ out).
Proof.
  intros Hj. destruct (item_in_range rows j Hj) as [letter Hl].
  unfold render_cell. rewrite Hl. unfold bind, ret.
  destruct (k =? 0).
  - exists []. intros svg. now rewrite app_nil_r.
  - destruct (k <? 0); eexists; intros svg; reflexivity.
Qed.

Lemma render_row_appends (reserved : list string) (j : nat) (row : list Z) :
  (j < String.length rows)%nat ->
  forall start, exists out,
    (forall svg,
        for_enumerate (render_cell reserved j) start row svg = ret (svg ++ out))
    /\ (forall i k g,
           nth_error row i = Some k ->
           (forall svg,
               render_cell reserved j (start + i) k svg = ret (svg ++ [g])) ->
           In g out).
Proof.
  intros Hj. induction row as [| k0 row IH]; intros start.
  - exists []. split.
    + intros svg. simpl. now rewrite app_nil_r.
    + intros i k g Hi. destruct i; discriminate.
  - destruct (render_cell_appends reserved j start k0 Hj) as [out1 H1].
    destruct (IH (S start)) as [out2 [H2 H3]].
    exists (out1 ++ out2). split.
    + intros svg. simpl. rewrite H1. unfold bind, ret.
      rewrite H2. now rewrite app_assoc.
    + intros i k g Hi Hg. apply in_or_app. destruct i as [| i].
      * left. simpl in Hi. inversion Hi; subst k0.
        specialize (Hg []). rewrite Nat.add_0_r, H1 in Hg.
        simpl in Hg. inversion Hg. now left.
      * right. apply (H3 i k g Hi). intros svg.
        replace (S start + i)%nat with (start + S i)%nat by lia. apply Hg.
Qed.

Lemma render_grid_appends (reserved : list string) (grid : list (list Z)) :
  forall start,
    (start + List.length grid <= String.length rows)%nat ->
    exists out,
      (forall svg,
          for_enumerate (render_row reserved) start grid svg = ret (svg ++ out))
      /\ (forall j i row k g,
             nth_error grid j = Some row ->
             nth_error row i = Some k ->
             (forall svg,
                 render_cell reserved (start + j) i k svg = ret (svg ++ [g])) ->
             In g out).
Proof.
  induction grid as [| row0 grid IH]; intros start Hlen.
  - exists []. split.
    + intros svg. simpl. now rewrite app_nil_r.
    + intros j i row k g Hj. destruct j; discriminate.
  - cbn [List.length] in Hlen.
    destruct (render_row_appends reserved start row0 ltac:(lia) 0%nat)
      as [out1 [H1 H1']].
    destruct (IH (S start) ltac:(lia)) as [out2 [H2 H2']].
    exists (out1 ++ out2). split.
    + intros svg. simpl. unfold render_row at 1. rewrite H1.
      unfold bind, ret. rewrite H2. now rewrite app_assoc.
    + intros j i row k g Hj Hi Hg. apply in_or_app. destruct j as [| j].
      * left. simpl in Hj. inversion Hj; subst row0.
        apply (H1' i k g Hi). intros svg. rewrite Nat.add_0_r in Hg. apply Hg.
      * right. apply (H2' j i row k g Hj Hi). intros svg.
        replace (S start + j)%nat with (start + S j)%nat by lia. apply Hg.
Qed.

Lemma check_grid_passes : check_grid = ret tt.
Proof. vm_compute. reflexivity. Qed.

(** The list [svg] is always built: the head, then what the cells append,
    then the closing tag; and what a cell of the grid appends is in it. *)
Lemma svg_lines_shape (reserved : list string) :
  exists out,
    svg_lines reserved = ret (svg_head ++ out ++ ["</svg>"])
    /\ (forall j i row k g,
           nth_error seats j = Some row ->
           nth_error row i = Some k ->
           (forall svg, render_cell reserved j i k svg = ret (svg ++ [g])) ->
           In g out).
Proof.
  assert (Hlen : (0 + List.length seats <= String.length rows)%nat)
    by (apply Nat.leb_le; vm_compute; reflexivity).
  destruct (render_grid_appends reserved seats 0%nat Hlen) as [out [H1 H2]].
  exists out. split.
  - unfold svg_lines. rewrite check_grid_passes, H1. unfold bind, ret.
    now rewrite <- app_assoc.
  - exact H2.
Qed.

Lemma draw_svg_returns (reserved : list string) :
  exists doc, draw_svg reserved = ret doc.
Proof.
  destruct (svg_lines_shape reserved) as [out [H _]].
  unfold draw_svg. rewrite H. unfold bind, ret. now eexists.
Qed.

(** ** The identifiers of the grid *)

Lemma cell_of_seat (k n : Z) : cell_of k = SeatNumber n -> n = k /\ 0 < k.
Proof.
  unfold cell_of.
  destruct (k =? 0) eqn:E0; [discriminate |].
  destruct (k <? 0) eqn:E1; [discriminate |].
  intros H. inversion H; subst. split; lia.
Qed.

(** [seat_ids] holds exactly the identifiers line 133 builds for the seats
    of the grid. *)
Lemma seat_ids_spec (id : string) :
  In id seat_ids <->
  exists j i row k letter,
    nth_error seats j = Some row /\ nth_error row i = Some k /\ 0 < k
    /\ item rows j = ret letter /\ id = (letter ++ str k)%string.
Proof.
  unfold seat_ids. rewrite in_flat_map. split.
  - intros [[j row] [Hjr Hid]]. apply nth_error_enumerate in Hjr.
    destruct Hjr as [_ Hj]. rewrite Nat.sub_0_r in Hj.
    cbn [fst snd] in Hid. unfold row_seat_ids in Hid.
    destruct (item rows j) as [e | letter] eqn:Hl; [contradiction |].
    apply in_flat_map in Hid. destruct Hid as [k [Hk Hid]].
    destruct (0 <? k) eqn:Hpos; [| contradiction].
    destruct Hid as [Hid | []].
    apply In_nth_error in Hk. destruct Hk as [i Hi].
    exists j, i, row, k, letter. repeat split; try assumption; try lia.
    now symmetry.
  - intros (j & i & row & k & letter & Hj & Hi & Hpos & Hl & ->).
    exists (j, row). split.
    + apply nth_error_enumerate. split; [lia |]. now rewrite Nat.sub_0_r.
    + cbn [fst snd]. unfold row_seat_ids. rewrite Hl.
      apply in_flat_map. exists k. split.
      * eapply nth_error_In; eassumption.
      * apply Z.ltb_lt in Hpos. rewrite Hpos. now left.
Qed.

(** The document depends on the reservations only through which
    identifiers of the grid they hold. *)
Lemma svg_lines_agree (r1 r2 : list string) :
  (forall id, In id seat_ids -> contains id r1 = contains id r2) ->
  svg_lines r1 = svg_lines r2.
Proof.
  intros H. unfold svg_lines.
  rewrite (for_enumerate_ext (render_row r1) (render_row r2));
    [reflexivity |].
  intros j row svg Hj. cbn [Nat.add]. unfold render_row.
  apply for_enumerate_ext. intros i k svg' Hi. cbn [Nat.add].
  unfold render_cell.
  destruct (k =? 0) eqn:E0; [reflexivity |].
  destruct (k <? 0) eqn:E1; [reflexivity |].
  destruct (item rows j) as [e | letter] eqn:Hl; [reflexivity |].
  unfold bind, ret. rewrite H; [reflexivity |].
  apply seat_ids_spec. exists j, i, row, k, letter.
  repeat split; try assumption. lia.
Qed.

(** ** The text and the grid on concrete values *)

Example seat_glyph_text :
  Svg.draw_seat (cell_x 0) (cell_y 0) 23 "yellow"
  = join nl
      [ ("<g transform=" ++ Svg.quoted "translate(60.0,140.0) scale(1.6)" ++ ">")%string;
        ("  <rect x=" ++ Svg.quoted "-10" ++ " y=" ++ Svg.quoted "-10"
         ++ " width=" ++ Svg.quoted "20" ++ " height=" ++ Svg.quoted "20"
         ++ " stroke=" ++ Svg.quoted "black" ++ " fill=" ++ Svg.quoted "yellow"
         ++ " />")%string;
        ("  <text x=" ++ Svg.quoted "0" ++ " y=" ++ Svg.quoted "0"
         ++ " dominant-baseline=" ++ Svg.quoted "middle"
         ++ " text-anchor=" ++ Svg.quoted "middle"
         ++ " font-family=" ++ Svg.quoted "sans-serif"
         ++ " font-size=" ++ Svg.quoted "9" ++ " fill=" ++ Svg.quoted "black"
         ++ " dy=" ++ Svg.quoted ".1em" ++ ">23</text>")%string;
        "</g>" ].
Proof. vm_compute. reflexivity. Qed.

Example row_letter_text :
  render_cell [] 2 7 (-1) []
  = ret [ ("<text x=" ++ Svg.quoted "340.0" ++ " y=" ++ Svg.quoted "220.0"
           ++ " dominant-baseline=" ++ Svg.quoted "middle"
           ++ " text-anchor=" ++ Svg.quoted "middle"
           ++ " font-family=" ++ Svg.quoted "sans-serif"
           ++ " font-size=" ++ Svg.quoted "20" ++ " fill=" ++ Svg.quoted "black"
           ++ ">C</text>")%string ].
Proof. vm_compute. reflexivity. Qed.

Example svg_head_text :
  svg_head
  = [ ("<svg xmlns=" ++ Svg.quoted "http://www.w3.org/2000/svg"
       ++ " width=" ++ Svg.quoted "1280" ++ " height=" ++ Svg.quoted "880"
       ++ ">")%string;
      Svg.draw_rect (Int 0) (Int 0) (Int 1280) (Int 80) "none" "#8bc34a";
      Svg.draw_text (Flt 1280) (Flt 90) (Int 24) "Scène" "white" [];
      Svg.draw_rect (Int 0) (Int 800) (Int 1280) (Int 80) "none" "#8bc34a";
      Svg.draw_text (Flt 1280) (Flt 1690) (Int 24) "Régie" "white" [] ]
  /\ format (VNum (Flt 1280)) = "640.0"
  /\ format (VNum (Flt 90)) = "45.0"
  /\ format (VNum (Flt 1690)) = "845.0".
Proof. repeat split; vm_compute; reflexivity. Qed.

Example cols_value :
  cols = [23; 21; 19; 17; 15; 13; 0; -1; 0; 11; 9; 7; 5; 3; 1;
          2; 4; 6; 8; 10; 12; 0; -1; 0; 14; 16; 18; 20; 22; 24].
Proof. vm_compute. reflexivity. Qed.

Example row_11_value :
  nth_error seats 10
  = Some [0; 0; 19; 17; 15; 13; 0; -1; 0; 11; 9; 7; 5; 3; 1;
          2; 4; 6; 8; 10; 12; 0; -1; 0; 14; 16; 0; 0; 0; 0].
Proof. vm_compute. reflexivity. Qed.

Example row_12_value :
  nth_error seats 11
  = Some [0; 0; 0; 0; 0; 0; 0; -1; 0; 11; 9; 7; 5; 3; 1;
          2; 4; 6; 8; 10; 12; 0; -1; 0; 0; 0; 0; 0; 0; 0].
Proof. vm_compute. reflexivity. Qed.

Example row_16_value :
  nth_error seats 15
  = Some [0; 0; 0; 0; 0; 0; 0; -1; 0; 11; 9; 7; 5; 0; 0;
          0; 0; 6; 8; 10; 12; 0; -1; 0; 0; 0; 0; 0; 0; 0].
Proof. vm_compute. reflexivity. Qed.

(** Seat 23 of row A, reserved: the reserved colour, not yellow. *)
Example reserved_beats_premium :
  render_cell ["A23"] 0 0 23 []
  = ret [Svg.draw_seat (cell_x 0) (cell_y 0) 23 "#ffcccb"]
  /\ render_cell [] 0 0 23 []
     = ret [Svg.draw_seat (cell_x 0) (cell_y 0) 23 "yellow"]
  /\ render_cell [] 2 2 19 []
     = ret [Svg.draw_seat (cell_x 2) (cell_y 2) 19 "none"].
Proof. repeat split; vm_compute; reflexivity. Qed.

(** Two reserved seats of row A: two glyphs in the reserved colour, and of
    the four numbers above 20 only 21, 22 and 23 stay yellow in row A. *)
Example two_reserved_in_row_A :
  count_glyphs fill_reserved ["A1"; "A24"] = ret 2%nat
  /\ count_glyphs fill_premium ["A1"; "A24"] = ret 7%nat
  /\ count_glyphs fill_reserved [] = ret 0%nat.
Proof. repeat split; vm_compute; reflexivity. Qed.

(** ** The grid *)

Lemma rows_same_width :
  Forall (fun row => List.length row = List.length cols) seats.
Proof.
  apply Forall_forall. intros row Hrow.
  assert (Hall : forallb (fun row => Nat.eqb (List.length cols) (List.length row))
                   seats = true) by (vm_compute; reflexivity).
  rewrite forallb_forall in Hall. symmetry. apply Nat.eqb_eq. now apply Hall.
Qed.

(** C4. The two assertions of the grid always pass: the grid has 16 rows,
    one for each letter of A,B,C,D,E,F,G,H,J,K,L,M,N,O,P,Q, every row is as
    wide as the 30-cell pattern, and [draw_svg] returns a document for every
    list of reservations. *)
Theorem grid_assertions_hold :
  check_grid = ret tt
  /\ List.length seats = 16%nat
  /\ String.length rows = 16%nat
  /\ rows = "ABCDEFGHJKLMNOPQ"
  /\ List.length cols = 30%nat
  /\ Forall (fun row => List.length row = List.length cols) seats
  /\ (forall reserved, exists doc, draw_svg reserved = ret doc).
Proof.
  split; [exact check_grid_passes |].
  split; [reflexivity |].
  split; [reflexivity |].
  split; [reflexivity |].
  split; [reflexivity |].
  split; [exact rows_same_width | exact draw_svg_returns].
Qed.

(** C5. The pattern of a row: the left sequence is the odd numbers 1..23
    from 23 down, the right sequence the even numbers 2..24 upwards, and the
    pattern is the first 6 of the left, a gap (empty, letter, empty), the
    other 6 of the left, the first 6 of the right, the gap again, the other 6
    of the right. *)
Theorem canonical_pattern :
  ls = odd_descending
  /\ ls = [23; 21; 19; 17; 15; 13; 11; 9; 7; 5; 3; 1]
  /\ rs = even_ascending
  /\ rs = [2; 4; 6; 8; 10; 12; 14; 16; 18; 20; 22; 24]
  /\ cols = firstn 6 ls ++ [0; -1; 0] ++ skipn 6 ls
            ++ firstn 6 rs ++ [0; -1; 0] ++ skipn 6 rs
  /\ map cell_of [0; -1; 0] = [Empty; RowLabel; Empty]
  /\ List.length (firstn 6 ls) = 6%nat /\ List.length (skipn 6 ls) = 6%nat
  /\ List.length (firstn 6 rs) = 6%nat /\ List.length (skipn 6 rs) = 6%nat.
Proof. repeat split; vm_compute; reflexivity. Qed.

(** C6. Rows 3 to 10 (indices 2 to 9) are two empty cells, the interior of
    the pattern (all of it but its two outermost cells on each side), and two
    empty cells. *)
Theorem rows_3_to_10_padded (j : nat) :
  (2 <= j <= 9)%nat ->
  nth_error seats j = Some ([0; 0] ++ firstn 26 (skipn 2 cols) ++ [0; 0])
  /\ cols = firstn 2 cols ++ firstn 26 (skipn 2 cols) ++ skipn 28 cols
  /\ slice cols (Some 2) (Some (-2)) = firstn 26 (skipn 2 cols).
Proof.
  intros Hj.
  do 10 (destruct j as [| j]; [try lia; repeat split; vm_compute; reflexivity |]).
  lia.
Qed.

Lemma rows_3_to_10_padded_witness :
  nth_error seats 2 = Some ([0; 0] ++ firstn 26 (skipn 2 cols) ++ [0; 0])
  /\ cols = firstn 2 cols ++ firstn 26 (skipn 2 cols) ++ skipn 28 cols
  /\ slice cols (Some 2) (Some (-2)) = firstn 26 (skipn 2 cols).
Proof. apply (rows_3_to_10_padded 2). lia. Defined.

(** C7. Row 16 (index 15) is 6 empty cells, cells [6:13] of the pattern,
    4 empty cells, cells [-13:-6] of the pattern, 6 empty cells; it is as
    wide as every other row. *)
Theorem row_16_split :
  nth_error seats 15
  = Some (times 0 6 ++ slice cols (Some 6) (Some 13) ++ times 0 4
          ++ slice cols (Some (-13)) (Some (-6)) ++ times 0 6)
  /\ slice cols (Some 6) (Some 13) = firstn 7 (skipn 6 cols)
  /\ slice cols (Some (-13)) (Some (-6)) = firstn 7 (skipn 17 cols)
  /\ times 0 6 = [0; 0; 0; 0; 0; 0] /\ times 0 4 = [0; 0; 0; 0]
  /\ option_map (@List.length Z) (nth_error seats 15) = Some 30%nat
  /\ Forall (fun row => List.length row = 30%nat) seats.
Proof.
  repeat split; try (vm_compute; reflexivity).
  exact rows_same_width.
Qed.

(** ** The colouring *)

(** C10. Seat numbers above 20 are in the first two rows only, where they
    are 23, 21, 22 and 24; so with no reservation 8 glyphs are yellow. *)
Theorem premium_only_front_rows :
  (forall j row,
      nth_error seats j = Some row ->
      ((j < 2)%nat -> premium_of row = [23; 21; 22; 24])
      /\ ((2 <= j)%nat -> premium_of row = []))
  /\ (forall j i row k,
         nth_error seats j = Some row -> nth_error row i = Some k -> 20 < k ->
         (j = 0 \/ j = 1)%nat /\ (k = 21 \/ k = 22 \/ k = 23 \/ k = 24))
  /\ List.length (flat_map premium_of seats) = 8%nat
  /\ count_glyphs fill_premium [] = ret 8%nat
  /\ count_in_document fill_premium [] = ret 8%nat.
Proof.
  assert (Hrows : forall j row,
             nth_error seats j = Some row ->
             ((j < 2)%nat -> premium_of row = [23; 21; 22; 24])
             /\ ((2 <= j)%nat -> premium_of row = [])).
  { intros j row Hj.
    do 16 (destruct j as [| j];
           [vm_compute in Hj; inversion Hj; subst row;
            split; intros; try lia; reflexivity |]).
    vm_compute in Hj. destruct j; discriminate. }
  split; [exact Hrows |].
  split; [| repeat split; vm_compute; reflexivity].
  intros j i row k Hj Hi Hk.
  destruct (Hrows j row Hj) as [Hfront Hback].
  assert (Hin : In k (premium_of row)).
  { apply filter_In. split.
    - eapply nth_error_In; eassumption.
    - now apply Z.ltb_lt. }
  destruct (Nat.lt_ge_cases j 2) as [Hlt | Hge].
  - split; [lia |]. rewrite (Hfront Hlt) in Hin. simpl in Hin. lia.
  - rewrite (Hback Hge) in Hin. contradiction.
Qed.

Lemma premium_only_front_rows_witness :
  (0 = 0 \/ 0 = 1)%nat /\ (23 = 21 \/ 23 = 22 \/ 23 = 23 \/ 23 = 24).
Proof.
  apply (proj1 (proj2 premium_only_front_rows) 0%nat 0%nat cols 23);
    [reflexivity | reflexivity | lia].
Defined.

(** ** The reservations as a set *)

(** C2. Reservations that name no seat of the grid change nothing: the
    document is the one drawn for no reservation. *)
Theorem unknown_ids_ignored (reserved : list string) :
  (forall id, In id reserved -> ~ In id seat_ids) ->
  draw_svg reserved = draw_svg [] /\ svg_lines reserved = svg_lines [].
Proof.
  intros H.
  assert (Hlines : svg_lines reserved = svg_lines []).
  { apply svg_lines_agree. intros id Hid. cbn [contains existsb].
    destruct (contains id reserved) eqn:E; [| reflexivity].
    apply contains_In in E. exfalso. exact (H id E Hid). }
  split; [| exact Hlines]. unfold draw_svg. now rewrite Hlines.
Qed.

Lemma unknown_ids_ignored_witness :
  draw_svg ["Z99"] = draw_svg [] /\ svg_lines ["Z99"] = svg_lines [].
Proof.
  apply (unknown_ids_ignored ["Z99"]).
  intros id [<- | []] Hin.
  apply contains_In in Hin. vm_compute in Hin. discriminate.
Defined.

(** C8. Two lists of reservations with the same elements, in any order and
    with any repetition, give the same document. *)
Theorem same_set_same_document (r1 r2 : list string) :
  (forall id, In id r1 <-> In id r2) ->
  draw_svg r1 = draw_svg r2.
Proof.
  intros H. unfold draw_svg.
  rewrite (svg_lines_agree r1 r2); [reflexivity |].
  intros id _. now apply contains_ext.
Qed.

Lemma same_set_same_document_witness :
  draw_svg ["A1"; "B2"; "A1"] = draw_svg ["B2"; "A1"].
Proof.
  apply (same_set_same_document ["A1"; "B2"; "A1"] ["B2"; "A1"]).
  intros id. simpl. tauto.
Defined.

(** ** The reservation records *)

Lemma slice_head_short {A : Type} (xs : list A) :
  (List.length xs < 3)%nat -> slice xs None (Some 3) = xs.
Proof.
  intros H.
  destruct xs as [| a [| b [| c xs]]]; simpl in H; try lia; reflexivity.
Qed.

Lemma slice_tail_short {A : Type} (xs : list A) :
  (List.length xs < 3)%nat -> slice xs (Some 3) None = [].
Proof.
  intros H.
  destruct xs as [| a [| b [| c xs]]]; simpl in H; try lia; reflexivity.
Qed.

(** A record with fewer than 3 lines that are not comments has no
    reservation; its chart is written, and then the unpacking of line 215
    raises. *)
Lemma short_record_outcome (strip : string -> string)
    (seating_render : string -> string -> string -> string -> string)
    (root stem : string) (lines : list string) (st : site) :
  (List.length (non_comment lines) < 3)%nat ->
  exists doc,
    draw_svg [] = ret doc
    /\ process_record strip seating_render root stem lines st
       = (write_text root st ("static/" ++ stem ++ ".svg")%string doc,
          raise ValueError).
Proof.
  intros Hshort. destruct (draw_svg_returns []) as [doc Hdoc].
  exists doc. split; [exact Hdoc |].
  unfold process_record, reserved_of.
  rewrite (slice_tail_short _ Hshort). cbn [fold_left]. rewrite Hdoc.
  unfold ret. rewrite (slice_head_short _ Hshort).
  destruct (non_comment lines) as [| a [| b [| c xs]]];
    simpl in Hshort; try lia; reflexivity.
Qed.

(** ** The document in closed form *)

Lemma enumerate_from_cons {A : Type} (start : nat) (x : A) (xs : list A) :
  enumerate_from start (x :: xs) = (start, x) :: enumerate_from (S start) xs.
Proof. reflexivity. Qed.

(** A loop whose body appends [out i x] is the list of what it appends. *)
Lemma for_enumerate_flat_map {A B : Type}
    (body : nat -> A -> list B -> result (list B)) (out : nat -> A -> list B)
    (xs : list A) :
  forall start s,
    (forall i x s', nth_error xs i = Some x ->
                    body (start + i)%nat x s' = ret (s' ++ out (start + i)%nat x)) ->
    for_enumerate body start xs s
    = ret (s ++ flat_map (fun ix => out (fst ix) (snd ix)) (enumerate_from start xs)).
Proof.
  induction xs as [| x xs IH]; intros start s H.
  - simpl. now rewrite app_nil_r.
  - rewrite enumerate_from_cons. cbn [for_enumerate flat_map fst snd].
    pose proof (H 0%nat x s eq_refl) as H0. rewrite Nat.add_0_r in H0.
    rewrite H0. unfold bind, ret. rewrite IH.
    + now rewrite <- app_assoc.
    + intros i y s' Hi.
      replace (S start + i)%nat with (start + S i)%nat by lia. now apply H.
Qed.

Lemma render_cell_lines (reserved : list string) (j i : nat) (k : Z)
    (svg : list string) :
  (j < String.length rows)%nat ->
  render_cell reserved j i k svg = ret (svg ++ cell_lines reserved j i k).
Proof.
  intros Hj. destruct (render_cell_appends reserved j i k Hj) as [out Hout].
  unfold cell_lines. rewrite (Hout []), (Hout svg). reflexivity.
Qed.

Lemma render_row_lines (reserved : list string) (j : nat) (row : list Z)
    (svg : list string) :
  (j < String.length rows)%nat ->
  render_row reserved j row svg = ret (svg ++ row_lines reserved (j, row)).
Proof.
  intros Hj. unfold render_row, row_lines.
  apply (for_enumerate_flat_map (render_cell reserved j)
           (fun i k => cell_lines reserved j i k)).
  intros i k s' _. now apply render_cell_lines.
Qed.

Lemma seats_rows_have_letters (j : nat) (row : list Z) :
  nth_error seats j = Some row -> (j < String.length rows)%nat.
Proof.
  intros Hj.
  assert (Hlt : (j < List.length seats)%nat)
    by (apply nth_error_Some; congruence).
  assert (Hlen : List.length seats = String.length rows)
    by (vm_compute; reflexivity).
  lia.
Qed.

(** The list [svg] is the head, the lines of the cells in reading order,
    and the closing tag. *)
Lemma svg_lines_closed (reserved : list string) :
  svg_lines reserved = ret (svg_head ++ grid_lines reserved ++ ["</svg>"]).
Proof.
  unfold svg_lines. rewrite check_grid_passes.
  rewrite (for_enumerate_flat_map (render_row reserved)
             (fun j row => row_lines reserved (j, row))).
  - unfold bind, ret, grid_lines. rewrite <- app_assoc. reflexivity.
  - intros j row s' Hj. cbn [Nat.add].
    apply render_row_lines. eapply seats_rows_have_letters; eassumption.
Qed.

Lemma in_enumerate_seats (j : nat) (row : list Z) :
  In (j, row) (enumerate_from 0 seats) -> (j < String.length rows)%nat.
Proof.
  intros H. apply nth_error_enumerate in H. destruct H as [_ H].
  rewrite Nat.sub_0_r in H. eapply seats_rows_have_letters; eassumption.
Qed.

Lemma Forall2_flat_map {A B C : Type} (R : B -> C -> Prop)
    (f : A -> list B) (g : A -> list C) (l : list A) :
  (forall a, In a l -> Forall2 R (f a) (g a)) ->
  Forall2 R (flat_map f l) (flat_map g l).
Proof.
  induction l as [| a l IH]; intros H; simpl; [constructor |].
  apply Forall2_app.
  - apply H. now left.
  - apply IH. intros b Hb. apply H. now right.
Qed.

Lemma Forall2_same {A : Type} (R : A -> A -> Prop) (l : list A) :
  (forall a, R a a) -> Forall2 R l l.
Proof. intros H. induction l; constructor; auto. Qed.

Lemma cell_lines_recoloured (reserved : list string) (j i : nat) (k : Z) :
  Forall2 recoloured (cell_lines [] j i k) (cell_lines reserved j i k).
Proof.
  unfold cell_lines, render_cell.
  destruct (k =? 0); [constructor |].
  destruct (item rows j) as [e | letter]; unfold bind, ret.
  - destruct (k <? 0); constructor.
  - destruct (k <? 0).
    + repeat constructor.
    + cbn [contains existsb app].
      destruct (contains (letter ++ str k) reserved).
      * constructor; [| constructor]. right.
        now exists (cell_x i), (cell_y j), k,
          (if k >? 20 then color_premium else color_none).
      * repeat constructor.
Qed.

Lemma glyph_with_text (attribute : string) (x y size : num)
    (text fill : string) (kwargs : dict) :
  glyph_with attribute (Svg.draw_text x y size text fill kwargs) = false.
Proof. reflexivity. Qed.

Lemma glyph_table : glyph_table_ok = true.
Proof. vm_compute. reflexivity. Qed.

Lemma glyph_fills (j i : nat) (row : list Z) (k : Z) :
  In (j, row) (enumerate_from 0 seats) ->
  In (i, k) (enumerate_from 0 row) ->
  0 < k ->
  let glyph := Svg.draw_seat (cell_x i) (cell_y j) k in
  glyph_with fill_reserved (glyph color_reserved) = true
  /\ glyph_with fill_reserved (glyph color_premium) = false
  /\ glyph_with fill_reserved (glyph color_none) = false
  /\ glyph_with fill_premium (glyph color_reserved) = false
  /\ glyph_with fill_premium (glyph color_premium) = true
  /\ glyph_with fill_premium (glyph color_none) = false.
Proof.
  intros Hj Hi Hk glyph. pose proof glyph_table as H. unfold glyph_table_ok in H.
  rewrite forallb_forall in H. specialize (H (j, row) Hj). cbn [fst snd] in H.
  rewrite forallb_forall in H. specialize (H (i, k) Hi). cbn [fst snd] in H.
  apply Z.ltb_lt in Hk. rewrite Hk in H. unfold glyph_fills_ok in H.
  fold glyph in H.
  apply andb_prop in H. destruct H as [H T6].
  apply andb_prop in H. destruct H as [H T5].
  apply andb_prop in H. destruct H as [H T4].
  apply andb_prop in H. destruct H as [H T3].
  apply andb_prop in H. destruct H as [T1 T2].
  apply negb_true_iff in T2, T3, T4, T6.
  repeat split; assumption.
Qed.

Lemma flat_map_enumerate_snd {A B : Type} (g : A -> list B) (xs : list A) :
  forall start,
    flat_map (fun ik => g (snd ik)) (enumerate_from start xs) = flat_map g xs.
Proof.
  induction xs as [| x xs IH]; intros start; [reflexivity |].
  rewrite enumerate_from_cons. cbn [flat_map snd]. now rewrite IH.
Qed.

Lemma length_filter_flat_map_ext {A B C : Type} (P : B -> bool) (Q : C -> bool)
    (f : A -> list B) (g : A -> list C) (l : list A) :
  (forall a, In a l ->
             List.length (filter P (f a)) = List.length (filter Q (g a))) ->
  List.length (filter P (flat_map f l)) = List.length (filter Q (flat_map g l)).
Proof.
  induction l as [| a l IH]; intros H; [reflexivity |].
  cbn [flat_map]. rewrite !filter_app, !length_app.
  rewrite (H a) by now left.
  rewrite IH; [reflexivity |]. intros b Hb. apply H. now right.
Qed.

(** The glyphs of a cell in the reserved colour are as many as its
    identifiers that are reserved: one or none. *)
Lemma cell_count_reserved (reserved : list string) (j i : nat)
    (row : list Z) (k : Z) :
  In (j, row) (enumerate_from 0 seats) ->
  In (i, k) (enumerate_from 0 row) ->
  List.length (filter (glyph_with fill_reserved) (cell_lines reserved j i k))
  = List.length (filter (fun id => contains id reserved) (cell_ids j k)).
Proof.
  intros Hj Hi.
  destruct (item_in_range rows j (in_enumerate_seats j row Hj)) as [letter Hl].
  unfold cell_lines, render_cell, cell_ids. rewrite Hl. unfold bind, ret.
  destruct (k =? 0) eqn:E0.
  { apply Z.eqb_eq in E0. subst k. reflexivity. }
  destruct (k <? 0) eqn:E1.
  { apply Z.ltb_lt in E1.
    replace (0 <? k) with false by (symmetry; apply Z.ltb_ge; lia).
    cbn [filter app]. now rewrite glyph_with_text. }
  apply Z.eqb_neq in E0. apply Z.ltb_ge in E1.
  assert (Hk : 0 < k) by lia.
  destruct (glyph_fills j i row k Hj Hi Hk) as (T1 & T2 & T3 & _).
  apply Z.ltb_lt in Hk. rewrite Hk. cbn [filter app].
  destruct (contains (letter ++ str k) reserved).
  - now rewrite T1.
  - destruct (k >? 20).
    + now rewrite T2.
    + now rewrite T3.
Qed.

(** The yellow glyphs of a cell are as many as its identifiers above 20
    that are not reserved. *)
Lemma cell_count_premium (reserved : list string) (j i : nat)
    (row : list Z) (k : Z) :
  In (j, row) (enumerate_from 0 seats) ->
  In (i, k) (enumerate_from 0 row) ->
  List.length (filter (glyph_with fill_premium) (cell_lines reserved j i k))
  = List.length (filter (fun id => negb (contains id reserved))
                   (cell_premium_ids j k)).
Proof.
  intros Hj Hi.
  destruct (item_in_range rows j (in_enumerate_seats j row Hj)) as [letter Hl].
  unfold cell_lines, render_cell, cell_premium_ids. rewrite Hl. unfold bind, ret.
  destruct (k =? 0) eqn:E0.
  { apply Z.eqb_eq in E0. subst k. reflexivity. }
  destruct (k <? 0) eqn:E1.
  { apply Z.ltb_lt in E1.
    replace (20 <? k) with false by (symmetry; apply Z.ltb_ge; lia).
    cbn [filter app]. now rewrite glyph_with_text. }
  apply Z.eqb_neq in E0. apply Z.ltb_ge in E1.
  assert (Hk : 0 < k) by lia.
  destruct (glyph_fills j i row k Hj Hi Hk) as (_ & _ & _ & T4 & T5 & T6).
  rewrite Z.gtb_ltb.
  destruct (20 <? k); cbn [filter app];
    destruct (contains (letter ++ str k) reserved); cbn [negb filter app].
  - now rewrite T4.
  - now rewrite T5.
  - now rewrite T4.
  - now rewrite T6.
Qed.

(** ** What the reservations change in the document *)

(** X1. Whatever is reserved, the document has the same 320 lines as the
    document drawn for no reservation, each at its place, but for the seats
    drawn in the reserved colour. *)
Theorem reservations_only_recolour (reserved : list string) :
  exists svg0 svg,
    svg_lines [] = ret svg0
    /\ svg_lines reserved = ret svg
    /\ Forall2 recoloured svg0 svg
    /\ List.length svg = 320%nat.
Proof.
  exists (svg_head ++ grid_lines [] ++ ["</svg>"]),
         (svg_head ++ grid_lines reserved ++ ["</svg>"]).
  assert (Hrel : Forall2 recoloured (svg_head ++ grid_lines [] ++ ["</svg>"])
                   (svg_head ++ grid_lines reserved ++ ["</svg>"])).
  { apply Forall2_app.
    - apply Forall2_same. now left.
    - apply Forall2_app.
      + unfold grid_lines. apply Forall2_flat_map. intros [j row] _.
        unfold row_lines. apply Forall2_flat_map. intros [i k] _.
        apply cell_lines_recoloured.
      + apply Forall2_same. now left. }
  split; [apply svg_lines_closed |].
  split; [apply svg_lines_closed |].
  split; [exact Hrel |].
  rewrite <- (Forall2_length Hrel). vm_compute. reflexivity.
Qed.

Lemma count_glyphs_closed (attribute : string) (reserved : list string) :
  count_glyphs attribute reserved
  = ret (List.length (filter (glyph_with attribute) (grid_lines reserved))).
Proof.
  unfold count_glyphs. rewrite svg_lines_closed. unfold bind, ret. apply (f_equal (@inr exn nat)).
  change (fun line : string =>
            String.prefix "<g " line && Nat.ltb 0 (occurrences attribute line))
    with (glyph_with attribute).
  rewrite !filter_app, !length_app.
  assert (Hhead : filter (glyph_with attribute) svg_head = [])
    by reflexivity.
  assert (Htail : filter (glyph_with attribute) ["</svg>"] = [])
    by reflexivity.
  rewrite Hhead, Htail. cbn [List.length]. lia.
Qed.

Lemma grid_reserved_count (reserved : list string) :
  List.length (filter (glyph_with fill_reserved) (grid_lines reserved))
  = List.length (filter (fun id => contains id reserved) seat_ids).
Proof.
  unfold grid_lines, seat_ids.
  apply length_filter_flat_map_ext. intros [j row] Hj. cbn [fst snd].
  unfold row_lines. cbn [fst snd].
  replace (row_seat_ids j row)
    with (flat_map (fun ik : nat * Z => cell_ids j (snd ik)) (enumerate_from 0 row)).
  - apply length_filter_flat_map_ext. intros [i k] Hi. cbn [fst snd].
    eapply cell_count_reserved; eassumption.
  - rewrite flat_map_enumerate_snd. unfold row_seat_ids, cell_ids. clear Hj.
    destruct (item rows j) as [e | letter]; [| reflexivity].
    induction row as [| k row IH]; [reflexivity | exact IH].
Qed.

(** X2. The glyphs drawn in the reserved colour are as many as the seats
    of the grid whose identifier is among the reservations. *)
Theorem reserved_glyph_count (reserved : list string) :
  count_glyphs fill_reserved reserved
  = ret (List.length (filter (fun id => contains id reserved) seat_ids)).
Proof.
  rewrite count_glyphs_closed. unfold ret. apply (f_equal (@inr exn nat)).
  apply grid_reserved_count.
Qed.

(** X4. The yellow glyphs are as many as the seats above 20 that are not
    reserved; those seats are 21 to 24 of rows A and B. *)
Theorem premium_glyph_count (reserved : list string) :
  count_glyphs fill_premium reserved
  = ret (List.length
           (filter (fun id => negb (contains id reserved)) premium_seat_ids))
  /\ premium_seat_ids = ["A23"; "A21"; "A22"; "A24"; "B23"; "B21"; "B22"; "B24"].
Proof.
  split; [| vm_compute; reflexivity].
  rewrite count_glyphs_closed. unfold ret. apply (f_equal (@inr exn nat)).
  unfold grid_lines, premium_seat_ids.
  apply length_filter_flat_map_ext. intros [j row] Hj. cbn [fst snd].
  unfold row_lines. cbn [fst snd].
  rewrite <- (flat_map_enumerate_snd (cell_premium_ids j) row 0).
  apply length_filter_flat_map_ext. intros [i k] Hi. cbn [fst snd].
  eapply cell_count_premium; eassumption.
Qed.

Lemma seat_ids_nodup : NoDup seat_ids.
Proof.
  assert (H : nodup string_dec seat_ids = seat_ids) by (vm_compute; reflexivity).
  rewrite <- H. apply NoDup_nodup.
Qed.

Lemma length_filter_contains (ids reserved : list string) :
  NoDup ids -> NoDup reserved -> incl reserved ids ->
  List.length (filter (fun id => contains id reserved) ids) = List.length reserved.
Proof.
  intros Hids Hres Hincl. apply Nat.le_antisymm.
  - apply NoDup_incl_length.
    + now apply NoDup_filter.
    + intros id Hid. apply filter_In in Hid. now apply contains_In.
  - apply NoDup_incl_length; [assumption |].
    intros id Hid. apply filter_In. split.
    + now apply Hincl.
    + now apply contains_In.
Qed.

(** X3. Reservations that are seats of the grid, each named once, give as
    many glyphs in the reserved colour as there are reservations: an
    identifier colours one seat and only one. *)
Theorem valid_reservations_counted (reserved : list string) :
  NoDup reserved ->
  (forall id, In id reserved -> In id seat_ids) ->
  count_glyphs fill_reserved reserved = ret (List.length reserved).
Proof.
  intros Hnodup Hvalid.
  rewrite count_glyphs_closed, grid_reserved_count.
  now rewrite (length_filter_contains seat_ids reserved seat_ids_nodup Hnodup Hvalid).
Qed.

Lemma valid_reservations_counted_witness :
  count_glyphs fill_reserved ["A1"; "Q12"; "K20"] = ret 3%nat.
Proof.
  apply (valid_reservations_counted ["A1"; "Q12"; "K20"]).
  - repeat constructor; simpl; intuition discriminate.
  - intros id Hid. apply contains_In.
    destruct Hid as [<- | [<- | [<- | []]]]; vm_compute; reflexivity.
Defined.

(** ** The identifier of a seat *)

Lemma to_int_nonnil (z : Z) :
  Z.to_int z <> Decimal.Pos Decimal.Nil /\ Z.to_int z <> Decimal.Neg Decimal.Nil.
Proof.
  destruct z as [| p | p]; simpl; split; intros H; inversion H;
    try discriminate;
    match goal with E : Pos.to_uint _ = Decimal.Nil |- _ =>
      exact (DecimalPos.Unsigned.to_uint_nonnil _ E) end.
Qed.

(** [str] of an int can be read back. *)
Lemma str_inj (a b : Z) : str a = str b -> a = b.
Proof.
  unfold str. intros H.
  destruct (to_int_nonnil a) as [Ha1 Ha2].
  destruct (to_int_nonnil b) as [Hb1 Hb2].
  apply (f_equal NilZero.int_of_string) in H.
  rewrite (NilZero.isi _ Ha1 Ha2), (NilZero.isi _ Hb1 Hb2) in H.
  inversion H as [E]. apply (f_equal Z.of_int) in E.
  now rewrite !DecimalZ.of_to in E.
Qed.

Lemma rows_letters_differ (j1 j2 : nat) (c : ascii) :
  String.get j1 rows = Some c -> String.get j2 rows = Some c -> j1 = j2.
Proof.
  intros H1 H2.
  do 16 (destruct j1 as [| j1];
         [ do 16 (destruct j2 as [| j2];
                  [ first [reflexivity | (vm_compute in H1, H2; congruence)] |]);
           vm_compute in H2; destruct j2; discriminate |]).
  vm_compute in H1. destruct j1; discriminate.
Qed.

(** X5. The identifier built for a seat (the row's letter, then the seat
    number) names one row and one number: two cells with the same identifier
    are in the same row and carry the same number. *)
Theorem seat_identifier_injective (j1 j2 : nat) (k1 k2 : Z)
    (letter1 letter2 : string) :
  item rows j1 = ret letter1 ->
  item rows j2 = ret letter2 ->
  (letter1 ++ str k1)%string = (letter2 ++ str k2)%string ->
  j1 = j2 /\ k1 = k2.
Proof.
  unfold item, ret. intros H1 H2 Heq.
  destruct (String.get j1 rows) as [c1 |] eqn:G1; [| discriminate].
  destruct (String.get j2 rows) as [c2 |] eqn:G2; [| discriminate].
  inversion H1; subst letter1. inversion H2; subst letter2.
  cbn [String.append] in Heq. inversion Heq as [[Hc Hs]]. subst c2.
  split.
  - eapply rows_letters_differ; eassumption.
  - now apply str_inj.
Qed.

Lemma seat_identifier_injective_witness : 0%nat = 0%nat /\ 12 = 12.
Proof.
  apply (seat_identifier_injective 0 0 12 12 "A" "A"); reflexivity.
Defined.

(** ** The records, line by line *)

Lemma slice_from_3 {A : Type} (xs : list A) :
  slice xs (Some 3) None = skipn 3 xs.
Proof.
  destruct xs as [| a [| b [| c xs]]]; try reflexivity.
  unfold slice, slice_index.
  replace (3 <? 0) with false by reflexivity.
  set (len := Z.of_nat (List.length (a :: b :: c :: xs))).
  assert (Hlen : len = Z.of_nat (List.length xs) + 3)
    by (unfold len; cbn [List.length]; lia).
  replace (Z.max 0 (Z.min len 3)) with 3 by lia.
  replace (Z.to_nat (len - 3)) with (List.length xs) by lia.
  change (Z.to_nat 3) with 3%nat. cbn [skipn]. apply firstn_all.
Qed.

Lemma slice_upto_3 {A : Type} (xs : list A) :
  slice xs None (Some 3) = firstn 3 xs.
Proof.
  destruct xs as [| a [| b [| c xs]]]; try reflexivity.
  unfold slice, slice_index.
  replace (3 <? 0) with false by reflexivity.
  set (len := Z.of_nat (List.length (a :: b :: c :: xs))).
  assert (Hlen : len = Z.of_nat (List.length xs) + 3)
    by (unfold len; cbn [List.length]; lia).
  replace (Z.max 0 (Z.min len 3) - 0) with 3 by lia.
  reflexivity.
Qed.

Lemma collect_stripped (strip : string -> string) (lines acc : list string) :
  fold_left
    (fun reserved line =>
       let line := strip line in
       if nonempty line then reserved ++ [line] else reserved)
    lines acc
  = acc ++ filter nonempty (map strip lines).
Proof.
  revert acc. induction lines as [| line lines IH]; intros acc.
  - simpl. now rewrite app_nil_r.
  - cbn [fold_left map filter]. rewrite IH.
    destruct (nonempty (strip line)); [| reflexivity].
    now rewrite <- app_assoc.
Qed.

(** X6. The reservations of a record are the lines after its third,
    stripped, in their order and with their repetitions, without those that
    strip to nothing; a record of three lines or fewer has none. *)
Theorem reserved_of_lines (strip : string -> string) (lines : list string) :
  reserved_of strip lines = filter nonempty (map strip (skipn 3 lines))
  /\ ((List.length lines <= 3)%nat -> reserved_of strip lines = []).
Proof.
  assert (H : reserved_of strip lines
              = filter nonempty (map strip (skipn 3 lines))).
  { unfold reserved_of. rewrite slice_from_3. apply collect_stripped. }
  split; [exact H |].
  intros Hlen. rewrite H, skipn_all2 by assumption. reflexivity.
Qed.

Lemma reserved_of_lines_witness :
  reserved_of (fun s => s) ["Spectacle"; "Salle"; "Samedi"] = [].
Proof.
  apply (proj2 (reserved_of_lines (fun s => s) ["Spectacle"; "Salle"; "Samedi"])).
  simpl. lia.
Defined.

Lemma non_comment_drops (before after : list string) (comment : string) :
  String.prefix "#" comment = true ->
  non_comment (before ++ comment :: after) = non_comment (before ++ after).
Proof.
  intros H. unfold non_comment. rewrite !filter_app. cbn [filter].
  now rewrite H.
Qed.

(** X7. A line that starts with [#] counts for nothing wherever it stands
    in the record, among the three lines of heading as among the
    reservations: the record is processed as if the line were not there. *)
Theorem comment_line_ignored (strip : string -> string)
    (seating_render : string -> string -> string -> string -> string)
    (root stem comment : string) (before after : list string) (st : site) :
  String.prefix "#" comment = true ->
  process_record strip seating_render root stem (before ++ comment :: after) st
  = process_record strip seating_render root stem (before ++ after) st.
Proof.
  intros H. unfold process_record. now rewrite (non_comment_drops _ _ _ H).
Qed.

Lemma comment_line_ignored_witness :
  process_record (fun s => s) (fun a b c d => (a ++ b ++ c ++ d)%string)
    ".www" "soir" (["Spectacle"] ++ "# la salle" :: ["Salle"; "Samedi"; "A1"])
    (Site [] EmptyString)
  = process_record (fun s => s) (fun a b c d => (a ++ b ++ c ++ d)%string)
      ".www" "soir" (["Spectacle"] ++ ["Salle"; "Samedi"; "A1"])
      (Site [] EmptyString).
Proof.
  apply (comment_line_ignored (fun s => s)
           (fun a b c d => (a ++ b ++ c ++ d)%string)
           ".www" "soir" "# la salle" ["Spectacle"] ["Salle"; "Samedi"; "A1"]).
  reflexivity.
Defined.

Lemma record_with_heading (strip : string -> string)
    (seating_render : string -> string -> string -> string -> string)
    (root stem : string) (lines more : list string)
    (what where' when' : string) (st : site) :
  non_comment lines = what :: where' :: when' :: more ->
  exists doc,
    draw_svg (filter nonempty (map strip more)) = ret doc
    /\ process_record strip seating_render root stem lines st
       = (Site (written st ++ [((root ++ "/" ++ chart_name stem)%string, doc)])
               (tickets_text st
                ++ seating_render what where' when' (chart_name stem))%string,
          ret tt).
Proof.
  intros Hlines.
  destruct (draw_svg_returns (filter nonempty (map strip more))) as [doc Hdoc].
  exists doc. split; [exact Hdoc |].
  unfold process_record, reserved_of.
  rewrite slice_from_3, collect_stripped, slice_upto_3, Hlines.
  cbn [skipn firstn app]. rewrite Hdoc. reflexivity.
Qed.

(** X8. A record with three lines of heading is processed to the end: its
    chart, drawn for the stripped lines that follow the heading, is written
    under the name of the record, and the table of the three lines, taken
    as they are, is added to the ticket page. *)
Theorem well_formed_record_processed (strip : string -> string)
    (seating_render : string -> string -> string -> string -> string)
    (root stem : string) (lines more : list string)
    (what where' when' : string) (st : site) :
  non_comment lines = what :: where' :: when' :: more ->
  exists doc,
    draw_svg (filter nonempty (map strip more)) = ret doc
    /\ process_record strip seating_render root stem lines st
       = (Site (written st ++ [((root ++ "/" ++ chart_name stem)%string, doc)])
               (tickets_text st
                ++ seating_render what where' when' (chart_name stem))%string,
          ret tt).
Proof. apply record_with_heading. Qed.

Lemma well_formed_record_processed_witness :
  exists doc,
    draw_svg (filter nonempty (map (fun s => s) ["A1"; EmptyString; "B2"]))
    = ret doc
    /\ process_record (fun s => s) (fun a b c d => (a ++ b ++ c ++ d)%string)
         ".www" "soir"
         ["Spectacle"; "# la salle"; "Salle"; "Samedi"; "A1"; EmptyString; "B2"]
         (Site [] EmptyString)
       = (Site (written (Site [] EmptyString)
                ++ [((".www" ++ "/" ++ chart_name "soir")%string, doc)])
               (tickets_text (Site [] EmptyString)
                ++ (fun a b c d => (a ++ b ++ c ++ d)%string)
                     "Spectacle" "Salle" "Samedi" (chart_name "soir"))%string,
          ret tt).
Proof.
  apply (well_formed_record_processed (fun s => s)
           (fun a b c d => (a ++ b ++ c ++ d)%string) ".www" "soir"
           ["Spectacle"; "# la salle"; "Salle"; "Samedi"; "A1"; EmptyString; "B2"]
           ["A1"; EmptyString; "B2"] "Spectacle" "Salle" "Samedi"
           (Site [] EmptyString)).
  reflexivity.
Defined.

(** ** The loop over the records *)

Lemma string_app_assoc (a b c : string) :
  ((a ++ b) ++ c)%string = (a ++ b ++ c)%string.
Proof. induction a as [| ch a IH]; simpl; [reflexivity | now rewrite IH]. Qed.

Lemma string_app_empty (a : string) : (a ++ EmptyString)%string = a.
Proof. induction a as [| ch a IH]; simpl; [reflexivity | now rewrite IH]. Qed.

Lemma well_formed_step (strip : string -> string)
    (seating_render : string -> string -> string -> string -> string)
    (root : string) (record : string * list string) (st : site) :
  well_formed record ->
  exists st',
    process_record strip seating_render root (fst record) (snd record) st
    = (st', ret tt)
    /\ map fst (written st') = map fst (written st) ++ [chart_path root record]
    /\ tickets_text st'
       = (tickets_text st ++ table_of seating_render record)%string.
Proof.
  destruct record as [stem lines]. unfold well_formed, table_of, chart_path.
  cbn [fst snd]. intros Hwf.
  destruct (non_comment lines) as [| a [| b [| c more]]] eqn:Hlines;
    cbn [List.length] in Hwf; try lia.
  destruct (record_with_heading strip seating_render root stem lines more
              a b c st Hlines) as [doc [_ Hrun]].
  eexists. split; [exact Hrun |]. cbn [written tickets_text].
  split; [| reflexivity]. now rewrite map_app.
Qed.

(** The records with a heading are processed one after the other, and the
    loop goes on with what follows them. *)
Lemma well_formed_prefix (strip : string -> string)
    (seating_render : string -> string -> string -> string -> string)
    (root : string) (good : list (string * list string)) :
  forall st,
    Forall well_formed good ->
    exists st',
      (forall rest,
          process_records strip seating_render root (good ++ rest) st
          = process_records strip seating_render root rest st')
      /\ map fst (written st')
         = map fst (written st) ++ map (chart_path root) good
      /\ tickets_text st'
         = (tickets_text st ++ tables seating_render good)%string.
Proof.
  induction good as [| record good IH]; intros st Hgood.
  - exists st. split; [reflexivity |]. split.
    + cbn [map]. now rewrite app_nil_r.
    + unfold tables. cbn [map fold_right]. now rewrite string_app_empty.
  - inversion Hgood as [| ? ? Hrecord Hrest]; subst.
    destruct (well_formed_step strip seating_render root record st Hrecord)
      as [st1 [Hrun [Hw1 Ht1]]].
    destruct (IH st1 Hrest) as [st' [Hloop [Hw Ht]]].
    exists st'. split; [| split].
    + intros rest. cbn [app process_records]. destruct record as [stem lines].
      cbn [fst snd] in Hrun. rewrite Hrun. apply Hloop.
    + rewrite Hw, Hw1. cbn [map]. now rewrite <- app_assoc.
    + rewrite Ht, Ht1. unfold tables. cbn [map fold_right].
      now rewrite string_app_assoc.
Qed.

(** X9. When every record has its heading, the loop ends without an
    exception: one chart is written for each record, in the order of the
    records and under the name of each, and the ticket page receives the
    tables of the records in that order. *)
Theorem all_records_processed (strip : string -> string)
    (seating_render : string -> string -> string -> string -> string)
    (root : string) (records : list (string * list string)) (st : site) :
  Forall well_formed records ->
  snd (process_records strip seating_render root records st) = ret tt
  /\ map fst (written (fst (process_records strip seating_render root records st)))
     = map fst (written st) ++ map (chart_path root) records
  /\ tickets_text (fst (process_records strip seating_render root records st))
     = (tickets_text st ++ tables seating_render records)%string.
Proof.
  intros Hgood.
  destruct (well_formed_prefix strip seating_render root records st Hgood)
    as [st' [Hloop [Hw Ht]]].
  specialize (Hloop []). rewrite app_nil_r in Hloop. rewrite Hloop.
  cbn [process_records fst snd]. repeat split; assumption.
Qed.

(** X10. The loop stops at the first record without its heading: the
    charts of the records before it and its own chart are written, the
    tables of the records before it are on the ticket page, the exception is
    [ValueError], and the records after it leave no trace. *)
Theorem first_short_record_stops (strip : string -> string)
    (seating_render : string -> string -> string -> string -> string)
    (root : string) (good rest : list (string * list string))
    (bad : string * list string) (st : site) :
  Forall well_formed good ->
  ~ well_formed bad ->
  snd (process_records strip seating_render root (good ++ bad :: rest) st)
  = raise ValueError
  /\ process_records strip seating_render root (good ++ bad :: rest) st
     = process_records strip seating_render root (good ++ [bad]) st
  /\ map fst (written (fst (process_records strip seating_render root
                              (good ++ bad :: rest) st)))
     = map fst (written st) ++ map (chart_path root) (good ++ [bad])
  /\ tickets_text (fst (process_records strip seating_render root
                          (good ++ bad :: rest) st))
     = (tickets_text st ++ tables seating_render good)%string.
Proof.
  intros Hgood Hbad.
  destruct (well_formed_prefix strip seating_render root good st Hgood)
    as [st' [Hloop [Hw Ht]]].
  rewrite !Hloop. destruct bad as [stem lines].
  assert (Hshort : (List.length (non_comment lines) < 3)%nat)
    by (unfold well_formed in Hbad; cbn [snd] in Hbad; lia).
  destruct (short_record_outcome strip seating_render root stem lines st' Hshort)
    as [doc [_ Hrun]].
  cbn [process_records]. rewrite Hrun. unfold raise, write_text.
  cbn [fst snd written tickets_text].
  split; [reflexivity |]. split; [reflexivity |].
  split.
  - rewrite !map_app, Hw. cbn [map fst]. now rewrite <- app_assoc.
  - exact Ht.
Qed.

Lemma all_records_processed_witness :
  snd (process_records (fun s => s) (fun a b c d => (a ++ b ++ c ++ d)%string)
         ".www"
         [("matinee", ["Spectacle"; "Salle"; "Dimanche"; "A1"]);
          ("soir", ["# soir"; "Spectacle"; "Salle"; "Samedi"])]
         (Site [] "Billets"))
  = ret tt.
Proof.
  apply (all_records_processed (fun s => s)
           (fun a b c d => (a ++ b ++ c ++ d)%string) ".www"
           [("matinee", ["Spectacle"; "Salle"; "Dimanche"; "A1"]);
            ("soir", ["# soir"; "Spectacle"; "Salle"; "Samedi"])]
           (Site [] "Billets")).
  repeat constructor; unfold well_formed; simpl; lia.
Defined.

Lemma first_short_record_stops_witness :
  snd (process_records (fun s => s) (fun a b c d => (a ++ b ++ c ++ d)%string)
         ".www"
         ([("matinee", ["Spectacle"; "Salle"; "Dimanche"; "A1"])]
          ++ ("soir", ["Spectacle"; "# Salle"; "Samedi"])
          :: [("veille", ["Spectacle"; "Salle"; "Vendredi"])])
         (Site [] "Billets"))
  = raise ValueError.
Proof.
  apply (first_short_record_stops (fun s => s)
           (fun a b c d => (a ++ b ++ c ++ d)%string) ".www"
           [("matinee", ["Spectacle"; "Salle"; "Dimanche"; "A1"])]
           [("veille", ["Spectacle"; "Salle"; "Vendredi"])]
           ("soir", ["Spectacle"; "# Salle"; "Samedi"])
           (Site [] "Billets")).
  - repeat constructor; unfold well_formed; simpl; lia.
  - unfold well_formed. simpl. lia.
Defined.

(** ** The frame and the coordinates of the document *)

Lemma join_cons (sep p : string) (rest : list string) :
  rest <> [] -> join sep (p :: rest) = (p ++ sep ++ join sep rest)%string.
Proof. destruct rest; [congruence | reflexivity]. Qed.

Lemma join_snoc (sep last : string) (parts : list string) :
  parts <> [] ->
  join sep (parts ++ [last]) = (join sep parts ++ sep ++ last)%string.
Proof.
  induction parts as [| p parts IH]; intros H; [congruence |].
  destruct parts as [| q parts].
  - reflexivity.
  - change ((p :: q :: parts) ++ [last]) with (p :: ((q :: parts) ++ [last])).
    rewrite join_cons by (cbn [app]; discriminate).
    rewrite IH by discriminate.
    rewrite (join_cons sep p (q :: parts)) by discriminate.
    now rewrite string_app_assoc, string_app_assoc.
Qed.

(** X12. Whatever is reserved, the document opens with the root element
    of the same size, 1280 by 880, and closes with its end tag. *)
Theorem document_frame (reserved : list string) :
  exists body,
    draw_svg reserved
    = ret (("<svg xmlns=" ++ Svg.quoted "http://www.w3.org/2000/svg"
            ++ " width=" ++ Svg.quoted "1280" ++ " height=" ++ Svg.quoted "880"
            ++ ">")
           ++ nl ++ body ++ nl ++ "</svg>")%string.
Proof.
  unfold draw_svg. rewrite svg_lines_closed. unfold bind, ret.
  assert (Hhead : exists second others,
             svg_head
             = ("<svg xmlns=" ++ Svg.quoted "http://www.w3.org/2000/svg"
                ++ " width=" ++ Svg.quoted "1280" ++ " height=" ++ Svg.quoted "880"
                ++ ">")%string :: second :: others).
  { do 2 eexists. vm_compute. reflexivity. }
  destruct Hhead as (second & others & ->).
  exists (join nl ((second :: others) ++ grid_lines reserved)).
  apply (f_equal (@inr exn string)).
  cbn [app]. rewrite join_cons by discriminate.
  change (second :: others ++ grid_lines reserved ++ ["</svg>"])
    with ((second :: others) ++ grid_lines reserved ++ ["</svg>"]).
  rewrite app_assoc. rewrite join_snoc by (cbn [app]; discriminate).
  reflexivity.
Qed.

Lemma string_length_app (a b : string) :
  String.length (a ++ b) = (String.length a + String.length b)%nat.
Proof. induction a as [| c a IH]; simpl; [reflexivity | now rewrite IH]. Qed.

Lemma string_app_inv_head (a b c : string) :
  (a ++ b)%string = (a ++ c)%string -> b = c.
Proof.
  induction a as [| ch a IH]; simpl; intros H; [assumption |].
  inversion H. auto.
Qed.

Lemma string_app_inv_tail (a b t : string) :
  (a ++ t)%string = (b ++ t)%string -> a = b.
Proof.
  revert b. induction a as [| ch a IH]; intros [| ch' b] H; simpl in H.
  - reflexivity.
  - apply (f_equal String.length) in H. simpl in H.
    rewrite string_length_app in H. lia.
  - apply (f_equal String.length) in H. simpl in H.
    rewrite string_length_app in H. lia.
  - inversion H. f_equal. auto.
Qed.

Lemma all_digits_uint (d : Decimal.uint) :
  all_digits (NilEmpty.string_of_uint d) = true.
Proof. induction d; simpl; auto. Qed.

Lemma all_digits_str (n : Z) : 0 <= n -> all_digits (str n) = true.
Proof.
  intros Hn. unfold str. destruct n as [| p | p]; [reflexivity | | lia].
  simpl. unfold NilZero.string_of_uint.
  destruct (Pos.to_uint p); try reflexivity; apply (all_digits_uint (_ _)).
Qed.

(** A string of digits is read up to the first character that is not a
    digit. *)
Lemma digits_delimited (s1 s2 r1 r2 : string) (c1 c2 : ascii) :
  all_digits s1 = true -> all_digits s2 = true ->
  is_digit c1 = false -> is_digit c2 = false ->
  (s1 ++ String c1 r1)%string = (s2 ++ String c2 r2)%string ->
  s1 = s2 /\ r1 = r2.
Proof.
  revert s2. induction s1 as [| d1 s1 IH]; intros [| d2 s2] H1 H2 Hc1 Hc2 H;
    simpl in *.
  - inversion H. now split.
  - inversion H; subst. apply andb_prop in H2. destruct H2 as [Hd _]. congruence.
  - inversion H; subst. apply andb_prop in H1. destruct H1 as [Hd _]. congruence.
  - inversion H; subst. apply andb_prop in H1, H2.
    destruct H1 as [_ H1]. destruct H2 as [_ H2].
    destruct (IH s2 H1 H2 Hc1 Hc2 ltac:(assumption)) as [-> ->]. now split.
Qed.

Lemma cell_x_text (i : nat) :
  format (VNum (cell_x i)) = (str (40 * Z.of_nat i + 60) ++ ".0")%string.
Proof.
  unfold cell_x, scale, add, one_and_half, size, format, float_repr.
  replace (40 * (2 * Z.of_nat i + 3)) with (2 * (40 * Z.of_nat i + 60)) by lia.
  replace (2 * (40 * Z.of_nat i + 60) <? 0) with false
    by (symmetry; apply Z.ltb_ge; lia).
  rewrite Z.even_mul. cbn [Z.even orb].
  rewrite Z.abs_eq by lia. rewrite Z.mul_comm, Z.div_mul by lia. reflexivity.
Qed.

Lemma cell_y_text (j : nat) :
  format (VNum (cell_y j)) = (str (40 * Z.of_nat j + 140) ++ ".0")%string.
Proof.
  unfold cell_y, scale, add, three_and_half, size, format, float_repr.
  replace (40 * (2 * Z.of_nat j + 7)) with (2 * (40 * Z.of_nat j + 140)) by lia.
  replace (2 * (40 * Z.of_nat j + 140) <? 0) with false
    by (symmetry; apply Z.ltb_ge; lia).
  rewrite Z.even_mul. cbn [Z.even orb].
  rewrite Z.abs_eq by lia. rewrite Z.mul_comm, Z.div_mul by lia. reflexivity.
Qed.

(** ** Reading a seat group back *)

Ltac norm_strings :=
  repeat (rewrite ?string_app_assoc; cbn [String.append]).

(** The text of a seat group: fixed text around the two coordinates, the
    fill and the seat number. *)
Lemma draw_seat_shape (x y : num) (k : Z) (color : string) :
  Svg.draw_seat x y k color
  = (seat_open ++ format (VNum x) ++ "," ++ format (VNum y) ++ seat_to_fill
     ++ color ++ seat_to_number ++ str k ++ seat_close)%string.
Proof.
  unfold Svg.draw_seat, Svg.draw_text, Svg.draw_rect.
  generalize (format (VNum x)) (format (VNum y)) (str k). intros X Y K.
  cbv -[String.append]. norm_strings. reflexivity.
Qed.

Lemma place_read_back (a1 b1 a2 b2 : Z) (r1 r2 : string) :
  0 <= a1 -> 0 <= b1 -> 0 <= a2 -> 0 <= b2 ->
  (str a1 ++ String "." (String "0" (String ","
     (str b1 ++ String "." (String "0" r1)))))%string
  = (str a2 ++ String "." (String "0" (String ","
       (str b2 ++ String "." (String "0" r2)))))%string ->
  a1 = a2 /\ b1 = b2 /\ r1 = r2.
Proof.
  intros Ha1 Hb1 Ha2 Hb2 H.
  apply digits_delimited in H;
    [| now apply all_digits_str | now apply all_digits_str
     | reflexivity | reflexivity].
  destruct H as [Ha H]. apply str_inj in Ha.
  injection H as H.
  apply digits_delimited in H;
    [| now apply all_digits_str | now apply all_digits_str
     | reflexivity | reflexivity].
  destruct H as [Hb H]. apply str_inj in Hb.
  injection H as H. now repeat split.
Qed.

Lemma cell_in_bounds (j i : nat) (row : list Z) (k : Z) :
  nth_error seats j = Some row ->
  nth_error row i = Some k ->
  (i < List.length cols)%nat /\ (j < String.length rows)%nat.
Proof.
  intros Hj Hi. split.
  - pose proof rows_same_width as Hw. rewrite Forall_forall in Hw.
    rewrite <- (Hw row (nth_error_In _ _ Hj)).
    apply nth_error_Some. congruence.
  - eapply seats_rows_have_letters; eassumption.
Qed.

(** Two seat groups drawn at centres of cells of the grid have the same
    text only for the same cell. *)
Lemma seat_glyph_read_back (i1 j1 i2 j2 : nat) (k1 k2 : Z) (c1 c2 : string) :
  (i1 < List.length cols)%nat -> (j1 < String.length rows)%nat ->
  (i2 < List.length cols)%nat -> (j2 < String.length rows)%nat ->
  Svg.draw_seat (cell_x i1) (cell_y j1) k1 c1
  = Svg.draw_seat (cell_x i2) (cell_y j2) k2 c2 ->
  i1 = i2 /\ j1 = j2 /\ (k1 = k2 -> c1 = c2).
Proof.
  intros _ _ _ _ H. rewrite !draw_seat_shape, !cell_x_text, !cell_y_text in H.
  apply string_app_inv_head in H.
  repeat (rewrite ?string_app_assoc in H; cbn [String.append] in H).
  apply place_read_back in H; try lia.
  destruct H as (Hx & Hy & H).
  split; [lia |]. split; [lia |].
  intros ->. apply string_app_inv_head in H.
  eapply string_app_inv_tail. exact H.
Qed.

(** X13. Within the grid (30 columns, 16 rows) the text of a seat group
    tells its cell: two groups with the same text are drawn for the same
    column and the same row, and, for the same seat number, in the same
    colour. *)
Theorem seat_glyph_place (i1 j1 i2 j2 : nat) (k1 k2 : Z) (c1 c2 : string) :
  (i1 < List.length cols)%nat -> (j1 < String.length rows)%nat ->
  (i2 < List.length cols)%nat -> (j2 < String.length rows)%nat ->
  Svg.draw_seat (cell_x i1) (cell_y j1) k1 c1
  = Svg.draw_seat (cell_x i2) (cell_y j2) k2 c2 ->
  i1 = i2 /\ j1 = j2 /\ (k1 = k2 -> c1 = c2).
Proof. apply seat_glyph_read_back. Qed.

Lemma seat_glyph_place_witness :
  3%nat = 3%nat /\ 5%nat = 5%nat /\ (12 = 12 -> "yellow" = "yellow").
Proof.
  apply (seat_glyph_place 3 5 3 5 12 12 "yellow" "yellow");
    try (apply Nat.ltb_lt; reflexivity).
  reflexivity.
Defined.

Lemma seat_glyph_prefix (x y : num) (k : Z) (color : string) :
  String.prefix "<g " (Svg.draw_seat x y k color) = true.
Proof. rewrite draw_seat_shape. reflexivity. Qed.

Lemma not_a_glyph (line : string) :
  In line (svg_head ++ ["</svg>"]) -> String.prefix "<g " line = false.
Proof.
  intros H.
  assert (Hall : forallb (fun l => negb (String.prefix "<g " l))
                   (svg_head ++ ["</svg>"]) = true)
    by (vm_compute; reflexivity).
  rewrite forallb_forall in Hall. apply negb_true_iff. now apply Hall.
Qed.

(** A seat group of the document is the group of a seat of the grid. *)
Lemma glyph_in_document (reserved : list string) (x y : num) (k : Z)
    (color : string) :
  In (Svg.draw_seat x y k color) (svg_head ++ grid_lines reserved ++ ["</svg>"]) ->
  exists j i row k' letter,
    nth_error seats j = Some row /\ nth_error row i = Some k' /\ 0 < k'
    /\ item rows j = ret letter
    /\ Svg.draw_seat x y k color
       = Svg.draw_seat (cell_x i) (cell_y j) k'
           (expected_fill reserved (letter ++ str k') k').
Proof.
  intros Hin.
  apply in_app_or in Hin. destruct Hin as [Hin | Hin].
  { pose proof (not_a_glyph _ (in_or_app _ _ _ (or_introl Hin))) as Hno.
    rewrite seat_glyph_prefix in Hno. discriminate. }
  apply in_app_or in Hin. destruct Hin as [Hin | Hin].
  2:{ pose proof (not_a_glyph _ (in_or_app _ _ _ (or_intror Hin))) as Hno.
      rewrite seat_glyph_prefix in Hno. discriminate. }
  unfold grid_lines in Hin. apply in_flat_map in Hin.
  destruct Hin as [[j row] [Hj Hin]].
  unfold row_lines in Hin. cbn [fst snd] in Hin. apply in_flat_map in Hin.
  destruct Hin as [[i k'] [Hi Hin]]. cbn [fst snd] in Hin.
  apply nth_error_enumerate in Hj. destruct Hj as [_ Hj].
  apply nth_error_enumerate in Hi. destruct Hi as [_ Hi].
  rewrite Nat.sub_0_r in Hj, Hi.
  destruct (item_in_range rows j (seats_rows_have_letters j row Hj))
    as [letter Hl].
  unfold cell_lines, render_cell in Hin. rewrite Hl in Hin.
  unfold bind, ret in Hin.
  destruct (k' =? 0) eqn:E0; [contradiction |].
  destruct (k' <? 0) eqn:E1.
  { cbn [app] in Hin. destruct Hin as [Hin | []].
    apply (f_equal (String.prefix "<g ")) in Hin.
    rewrite seat_glyph_prefix in Hin. discriminate. }
  cbn [app] in Hin. destruct Hin as [Hin | []].
  apply Z.eqb_neq in E0. apply Z.ltb_ge in E1.
  exists j, i, row, k', letter. repeat split; try assumption; try lia.
  rewrite <- Hin. unfold expected_fill, color_reserved, color_premium, color_none.
  now rewrite Z.gtb_ltb.
Qed.

(** In the document, a seat group at the centre of a seat of the grid and
    with its number has the fill of the priority rule. *)
Lemma glyph_of_seat_unique (reserved : list string) (j i : nat) (row : list Z)
    (k : Z) (letter color : string) (svg : list string) :
  nth_error seats j = Some row ->
  nth_error row i = Some k ->
  item rows j = ret letter ->
  svg_lines reserved = ret svg ->
  In (Svg.draw_seat (cell_x i) (cell_y j) k color) svg ->
  color = expected_fill reserved (letter ++ str k) k.
Proof.
  intros Hj Hi Hl Hsvg Hin.
  rewrite svg_lines_closed in Hsvg. unfold ret in Hsvg.
  assert (Heq : svg = svg_head ++ grid_lines reserved ++ ["</svg>"])
    by congruence.
  subst svg. clear Hsvg.
  apply glyph_in_document in Hin.
  destruct Hin as (j' & i' & row' & k' & letter' & Hj' & Hi' & Hk' & Hl' & Heq).
  destruct (cell_in_bounds j i row k Hj Hi) as [Bi Bj].
  destruct (cell_in_bounds j' i' row' k' Hj' Hi') as [Bi' Bj'].
  apply seat_glyph_read_back in Heq; try assumption.
  destruct Heq as (-> & -> & Hcolor).
  assert (row' = row) by congruence. subst row'.
  assert (k' = k) by congruence. subst k'.
  assert (letter' = letter) by (unfold ret in *; congruence). subst letter'.
  now apply Hcolor.
Qed.

(** X14. At the place of a seat the document has no other glyph than the
    one of the priority rule: a seat group of the document drawn at the
    centre of a seat of the grid, with its number, has the fill that the
    reservations and the number give the seat. *)
Theorem seat_glyph_unique (reserved : list string) (j i : nat) (row : list Z)
    (k : Z) (letter color : string) (svg : list string) :
  nth_error seats j = Some row ->
  nth_error row i = Some k ->
  item rows j = ret letter ->
  svg_lines reserved = ret svg ->
  In (Svg.draw_seat (cell_x i) (cell_y j) k color) svg ->
  color = expected_fill reserved (letter ++ str k) k.
Proof. apply glyph_of_seat_unique. Qed.

Lemma seat_glyph_unique_witness :
  "#ffcccb" = expected_fill ["A23"] ("A" ++ str 23) 23.
Proof.
  apply (seat_glyph_unique ["A23"] 0 0 cols 23 "A" "#ffcccb"
           (svg_head ++ grid_lines ["A23"] ++ ["</svg>"]));
    [reflexivity | reflexivity | reflexivity | apply svg_lines_closed |].
  apply contains_In. vm_compute. reflexivity.
Defined.

(** ** The colouring of a seat *)

(** The text of the seat group of column [i], row [j], number [k]: the
    group with its place, the square with the fill, the number. *)
Lemma seat_glyph_lines (i j : nat) (k : Z) (color : string) :
  Svg.draw_seat (cell_x i) (cell_y j) k color
  = join nl
      [ ("<g transform="
         ++ Svg.quoted ("translate(" ++ str (40 * Z.of_nat i + 60) ++ ".0,"
                        ++ str (40 * Z.of_nat j + 140) ++ ".0) scale(1.6)")
         ++ ">")%string;
        ("  <rect x=" ++ Svg.quoted "-10" ++ " y=" ++ Svg.quoted "-10"
         ++ " width=" ++ Svg.quoted "20" ++ " height=" ++ Svg.quoted "20"
         ++ " stroke=" ++ Svg.quoted "black" ++ " fill=" ++ Svg.quoted color
         ++ " />")%string;
        ("  <text x=" ++ Svg.quoted "0" ++ " y=" ++ Svg.quoted "0"
         ++ " dominant-baseline=" ++ Svg.quoted "middle"
         ++ " text-anchor=" ++ Svg.quoted "middle"
         ++ " font-family=" ++ Svg.quoted "sans-serif"
         ++ " font-size=" ++ Svg.quoted "9" ++ " fill=" ++ Svg.quoted "black"
         ++ " dy=" ++ Svg.quoted ".1em" ++ ">" ++ str k ++ "</text>")%string;
        "</g>" ].
Proof.
  rewrite draw_seat_shape, cell_x_text, cell_y_text.
  generalize (str (40 * Z.of_nat i + 60)) (str (40 * Z.of_nat j + 140)) (str k).
  intros X Y K.
  cbv -[String.append]. norm_strings. reflexivity.
Qed.

(** C1. The fill of the glyph of a seat [n] of row [j]: the reserved colour
    when the identifier (letter, then number) is reserved, also for a number
    above 20; else yellow for a number above 20; else none.  That fill is
    the [fill] attribute of the square in the text of the glyph; the glyph
    is what the loop appends for the cell, it is in the document, and the
    document holds no glyph of another colour for the seat. *)
Theorem seat_fill_priority (reserved : list string) (j i : nat)
    (row : list Z) (k n : Z) (letter : string) :
  nth_error seats j = Some row ->
  nth_error row i = Some k ->
  cell_of k = SeatNumber n ->
  item rows j = ret letter ->
  exists fill glyph,
    (In (letter ++ str n)%string reserved -> fill = "#ffcccb")
    /\ (~ In (letter ++ str n)%string reserved -> 20 < n -> fill = "yellow")
    /\ (~ In (letter ++ str n)%string reserved -> n <= 20 -> fill = "none")
    /\ glyph
       = join nl
           [ ("<g transform="
              ++ Svg.quoted ("translate(" ++ str (40 * Z.of_nat i + 60) ++ ".0,"
                             ++ str (40 * Z.of_nat j + 140) ++ ".0) scale(1.6)")
              ++ ">")%string;
             ("  <rect x=" ++ Svg.quoted "-10" ++ " y=" ++ Svg.quoted "-10"
              ++ " width=" ++ Svg.quoted "20" ++ " height=" ++ Svg.quoted "20"
              ++ " stroke=" ++ Svg.quoted "black" ++ " fill=" ++ Svg.quoted fill
              ++ " />")%string;
             ("  <text x=" ++ Svg.quoted "0" ++ " y=" ++ Svg.quoted "0"
              ++ " dominant-baseline=" ++ Svg.quoted "middle"
              ++ " text-anchor=" ++ Svg.quoted "middle"
              ++ " font-family=" ++ Svg.quoted "sans-serif"
              ++ " font-size=" ++ Svg.quoted "9" ++ " fill=" ++ Svg.quoted "black"
              ++ " dy=" ++ Svg.quoted ".1em" ++ ">" ++ str n ++ "</text>")%string;
             "</g>" ]
    /\ (forall svg, render_cell reserved j i k svg = ret (svg ++ [glyph]))
    /\ (glyph_with fill_reserved glyph = true
        <-> In (letter ++ str n)%string reserved)
    /\ (glyph_with fill_premium glyph = true
        <-> ~ In (letter ++ str n)%string reserved /\ 20 < n)
    /\ exists svg,
         svg_lines reserved = ret svg
         /\ In glyph svg
         /\ draw_svg reserved = ret (join nl svg)
         /\ forall color,
              In (Svg.draw_seat (cell_x i) (cell_y j) n color) svg ->
              color = fill.
Proof.
  intros Hj Hi Hcell Hl.
  apply cell_of_seat in Hcell. destruct Hcell as [-> Hpos].
  set (id := (letter ++ str k)%string).
  exists (expected_fill reserved id k),
         (Svg.draw_seat (cell_x i) (cell_y j) k (expected_fill reserved id k)).
  assert (Hrun : forall svg,
             render_cell reserved j i k svg
             = ret (svg ++ [Svg.draw_seat (cell_x i) (cell_y j) k
                              (expected_fill reserved id k)])).
  { intros svg. unfold render_cell, expected_fill, id.
    replace (k =? 0) with false by (symmetry; apply Z.eqb_neq; lia).
    replace (k <? 0) with false by (symmetry; apply Z.ltb_ge; lia).
    rewrite Hl. unfold bind, ret. rewrite Z.gtb_ltb.
    destruct (contains (letter ++ str k) reserved); [reflexivity |].
    destruct (20 <? k); reflexivity. }
  assert (Hjr : In (j, row) (enumerate_from 0 seats))
    by (apply nth_error_enumerate; split; [lia | now rewrite Nat.sub_0_r]).
  assert (Hik : In (i, k) (enumerate_from 0 row))
    by (apply nth_error_enumerate; split; [lia | now rewrite Nat.sub_0_r]).
  destruct (glyph_fills j i row k Hjr Hik Hpos) as (T1 & T2 & T3 & T4 & T5 & T6).
  unfold color_reserved, color_premium, color_none in T1, T2, T3, T4, T5, T6.
  split; [| split; [| split; [| split; [| split; [| split; [| split]]]]]].
  - intros Hin. unfold expected_fill. apply contains_In in Hin. now rewrite Hin.
  - intros Hnin Hk. unfold expected_fill.
    destruct (contains id reserved) eqn:E.
    + apply contains_In in E. contradiction.
    + apply Z.ltb_lt in Hk. now rewrite Hk.
  - intros Hnin Hk. unfold expected_fill.
    destruct (contains id reserved) eqn:E.
    + apply contains_In in E. contradiction.
    + apply Z.ltb_ge in Hk. now rewrite Hk.
  - apply seat_glyph_lines.
  - exact Hrun.
  - unfold expected_fill. destruct (contains id reserved) eqn:E.
    + rewrite T1. split; [intros _; now apply contains_In | reflexivity].
    + assert (Hnin : ~ In id reserved)
        by (intros Hin; apply contains_In in Hin; congruence).
      destruct (20 <? k); [rewrite T2 | rewrite T3];
        (split; [discriminate | contradiction]).
  - unfold expected_fill. destruct (contains id reserved) eqn:E.
    + rewrite T4. split; [discriminate |].
      intros [Hnin _]. apply contains_In in E. contradiction.
    + assert (Hnin : ~ In id reserved)
        by (intros Hin; apply contains_In in Hin; congruence).
      destruct (20 <? k) eqn:E20.
      * rewrite T5. apply Z.ltb_lt in E20. now split.
      * rewrite T6. apply Z.ltb_ge in E20.
        split; [discriminate | intros [_ Hk]; lia].
  - destruct (svg_lines_shape reserved) as [out [Hlines Hin]].
    exists (svg_head ++ out ++ ["</svg>"]).
    split; [exact Hlines |]. split; [| split].
    + apply in_or_app. right. apply in_or_app. left.
      eapply Hin; eassumption.
    + unfold draw_svg. rewrite Hlines. reflexivity.
    + intros color Hcolor.
      exact (glyph_of_seat_unique reserved j i row k letter color _
               Hj Hi Hl Hlines Hcolor).
Qed.

Lemma seat_fill_priority_witness :
  exists fill glyph,
    fill = "#ffcccb"
    /\ (forall svg, render_cell ["A23"] 0 0 23 svg = ret (svg ++ [glyph]))
    /\ glyph_with fill_reserved glyph = true.
Proof.
  destruct (seat_fill_priority ["A23"] 0 0 cols 23 23 "A"
              eq_refl eq_refl eq_refl eq_refl)
    as (fill & glyph & Hres & _ & _ & _ & Hrun & Hattr & _).
  exists fill, glyph. split; [| split].
  - apply Hres. left. reflexivity.
  - exact Hrun.
  - apply Hattr. left. reflexivity.
Defined.

(** ** A record without its heading *)



